(** * ProcessX402Request: the x402 payment-request orchestration

    A shallow embedding of [src/application/usecases/ProcessX402Request.ts]
    and of the test doubles of [tests/application/ProcessX402Request.test.ts]
    (the in-memory repositories and [MockPaymentGateway]).

    The use case talks to three collaborators through interfaces.  Every
    asynchronous operation ([await]ed in the source) is a function on a
    world state [W] that either returns a value or throws; the three
    synchronous gateway operations are functions of their arguments that
    either return or throw.  [execute] runs in a small state-and-exception
    monad that also records every collaborator call, with its completion,
    in a trace. *)

From Stdlib Require Import ZArith String List Bool.
From stdpp Require Import base option list strings gmap.
Import ListNotations.

Local Open Scope string_scope.
Local Open Scope Z_scope.
Local Open Scope list_scope.

(** ** JavaScript completions *)

(** A thrown JavaScript [Error] value. *)
Record JsError := mkJsError { errorName : string; errorMessage : string }.

(** The completion of a call: it returns a value or throws. *)
Inductive Res (A : Type) : Type :=
| Returned (a : A)
| Thrown (e : JsError).
Arguments Returned {A} a.
Arguments Thrown {A} e.

(** [a ?? b] on an optional string: only [undefined] takes the default,
    the empty string is kept. *)
Definition nullish (a : option string) (b : string) : string :=
  match a with
  | Some s => s
  | None => b
  end.

(** ** Data model *)

Inductive ProductStatus := ACTIVE | INACTIVE.

(** Modelled from the spec: the [Vendor] entity ([domain/entities/Vendor.ts]
    is not among the sources); identity, display name, payout address, and
    the API key the in-memory repository reads. *)
Module Vendor.
Record t := mk {
  id : string;
  name : string;
  evmAddress : string;
  apiKey : string
}.
End Vendor.

(** Modelled from the spec: the [Product] entity ([domain/entities/Product.ts]
    is not among the sources); the fields are those of [Product.reconstruct]
    in the entity's test. [createdAt] is a timestamp in milliseconds. *)
Module Product.
Record t := mk {
  id : string;
  vendorId : string;
  path : string;
  price : string;
  network : string;
  description : string;
  mimeType : string;
  data : string;
  status : ProductStatus;
  createdAt : Z
}.
End Product.

(** The value shapes of the protocol library ([@x402/core]), with the fields
    the use case and the test doubles read and write. *)
Module ResourceInfo.
Record t := mk {
  url : string;
  description : string;
  mimeType : string
}.
End ResourceInfo.

Module ResourceConfig.
Record t := mk {
  scheme : string;
  network : string;
  price : string;
  payTo : string;
  maxTimeoutSeconds : option Z
}.
End ResourceConfig.

Module PaymentRequirements.
Record t := mk {
  scheme : string;
  network : string;
  asset : string;
  amount : string;
  payTo : string;
  maxTimeoutSeconds : Z;
  extra : list (string * string)
}.
End PaymentRequirements.

Module PaymentRequired.
Record t := mk {
  x402Version : Z;
  accepts : list PaymentRequirements.t;
  resource : ResourceInfo.t
}.
End PaymentRequired.

Module PaymentPayload.
Record t := mk {
  x402Version : Z;
  resource : ResourceInfo.t;
  accepted : PaymentRequirements.t;
  payload : list (string * string)
}.
End PaymentPayload.

Module VerifyResponse.
Record t := mk {
  isValid : bool;
  invalidReason : option string;
  payer : option string
}.
End VerifyResponse.

Module SettleResponse.
Record t := mk {
  success : bool;
  errorReason : option string;
  transaction : string;
  network : string;
  payer : option string
}.
End SettleResponse.

(** ** The use case's result and input *)

Inductive ProcessX402Result :=
| payment_required (paymentRequired : PaymentRequired.t)
| success (settleResponse : SettleResponse.t) (product : Product.t)
| verification_failed (reason : string)
| settlement_failed (reason : string)
| not_found (reason : string).

Record ProcessX402Input := mkInput {
  vendorId : string;
  path : string;
  resourceUrl : string;
  paymentHeader : option string
}.

(** The [type] tag of a result. *)
Inductive ResultType :=
| T_payment_required | T_success | T_verification_failed
| T_settlement_failed | T_not_found.

Definition result_type (r : ProcessX402Result) : ResultType :=
  match r with
  | payment_required _ => T_payment_required
  | success _ _ => T_success
  | verification_failed _ => T_verification_failed
  | settlement_failed _ => T_settlement_failed
  | not_found _ => T_not_found
  end.

(** [result.product]: the one variant with a [product] property. *)
Definition result_product (r : ProcessX402Result) : option Product.t :=
  match r with
  | success _ product => Some product
  | _ => None
  end.

(** ** Collaborator interfaces *)

Class IVendorRepository (W : Type) := {
  findById : string -> W -> Res (option Vendor.t) * W
}.

Class IProductRepository (W : Type) := {
  findByVendorIdAndPath : string -> string -> W -> Res (option Product.t) * W
}.

(** Modelled from the spec: the port [application/ports/IPaymentGateway.ts]
    is not among the sources.  The operations [execute] awaits act on the
    world; the three it calls synchronously are functions of their
    arguments (pure assembly, decoding, and matching). *)
Class IPaymentGateway (W : Type) := {
  buildPaymentRequirements :
    ResourceConfig.t -> W -> Res (list PaymentRequirements.t) * W;
  createPaymentRequiredResponse :
    list PaymentRequirements.t -> ResourceInfo.t -> Res PaymentRequired.t;
  parsePaymentHeader : string -> Res PaymentPayload.t;
  findMatchingRequirements :
    list PaymentRequirements.t -> PaymentPayload.t ->
    Res (option PaymentRequirements.t);
  verifyPayment :
    PaymentPayload.t -> PaymentRequirements.t -> W -> Res VerifyResponse.t * W;
  settlePayment :
    PaymentPayload.t -> PaymentRequirements.t -> W -> Res SettleResponse.t * W
}.

(** ** Recorded calls *)

Inductive Call :=
| CallFindById (id : string) (r : Res (option Vendor.t))
| CallFindByVendorIdAndPath (vendorId path : string) (r : Res (option Product.t))
| CallBuildPaymentRequirements
    (config : ResourceConfig.t) (r : Res (list PaymentRequirements.t))
| CallCreatePaymentRequiredResponse
    (requirements : list PaymentRequirements.t) (resourceInfo : ResourceInfo.t)
    (r : Res PaymentRequired.t)
| CallParsePaymentHeader (header : string) (r : Res PaymentPayload.t)
| CallFindMatchingRequirements
    (requirements : list PaymentRequirements.t) (payload : PaymentPayload.t)
    (r : Res (option PaymentRequirements.t))
| CallVerifyPayment
    (payload : PaymentPayload.t) (requirements : PaymentRequirements.t)
    (r : Res VerifyResponse.t)
| CallSettlePayment
    (payload : PaymentPayload.t) (requirements : PaymentRequirements.t)
    (r : Res SettleResponse.t).

Definition is_parse (c : Call) : bool :=
  match c with CallParsePaymentHeader _ _ => true | _ => false end.

Definition is_verify (c : Call) : bool :=
  match c with CallVerifyPayment _ _ _ => true | _ => false end.

Definition is_settle (c : Call) : bool :=
  match c with CallSettlePayment _ _ _ => true | _ => false end.

(** What a recorded call threw, if it threw. *)
Definition res_thrown {A} (r : Res A) : option JsError :=
  match r with
  | Returned _ => None
  | Thrown e => Some e
  end.

Definition call_thrown (c : Call) : option JsError :=
  match c with
  | CallFindById _ r => res_thrown r
  | CallFindByVendorIdAndPath _ _ r => res_thrown r
  | CallBuildPaymentRequirements _ r => res_thrown r
  | CallCreatePaymentRequiredResponse _ _ r => res_thrown r
  | CallParsePaymentHeader _ r => res_thrown r
  | CallFindMatchingRequirements _ _ r => res_thrown r
  | CallVerifyPayment _ _ r => res_thrown r
  | CallSettlePayment _ _ r => res_thrown r
  end.

(** ** The monad of [execute] *)

Section Monad.
Context {W : Type}.

Record St := mkSt { world : W; trace : list Call }.

Definition M (A : Type) : Type := St -> Res A * St.

Definition ret {A} (a : A) : M A := fun s => (Returned a, s).

Definition bind {A B} (m : M A) (k : A -> M B) : M B :=
  fun s =>
    match m s with
    | (Returned a, s') => k a s'
    | (Thrown e, s') => (Thrown e, s')
    end.

(** [await op(...)]: run the operation on the world and record the call. *)
Definition await {A} (op : W -> Res A * W) (ev : Res A -> Call) : M A :=
  fun s =>
    let (r, w') := op (world s) in
    (r, {| world := w'; trace := trace s ++ [ev r] |}).

(** A synchronous call: the world is untouched, the call is recorded. *)
Definition call {A} (r : Res A) (ev : Res A -> Call) : M A :=
  fun s => (r, {| world := world s; trace := trace s ++ [ev r] |}).
End Monad.

Arguments St W : clear implicits.
Arguments M W A : clear implicits.

Notation "'let*' x ':=' m 'in' k" := (bind m (fun x => k))
  (at level 10, x name, m at level 100, k at level 200).

(** ** [ProcessX402Request.execute] *)

Section ProcessX402Request.
Context {W : Type}.
Context {vendorRepository : IVendorRepository W}.
Context {productRepository : IProductRepository W}.
Context {paymentGateway : IPaymentGateway W}.

Definition resourceInfo_of (input : ProcessX402Input) (product : Product.t)
  : ResourceInfo.t :=
  {| ResourceInfo.url := resourceUrl input;
     ResourceInfo.description := Product.description product;
     ResourceInfo.mimeType := Product.mimeType product |}.

Definition resourceConfig_of (vendor : Vendor.t) (product : Product.t)
  : ResourceConfig.t :=
  {| ResourceConfig.scheme := "exact";
     ResourceConfig.network := Product.network product;
     ResourceConfig.price := Product.price product;
     ResourceConfig.payTo := Vendor.evmAddress vendor;
     ResourceConfig.maxTimeoutSeconds := Some 60 |}.

Definition execute (input : ProcessX402Input) : M W ProcessX402Result :=
  let* vendor :=
    await (findById (vendorId input)) (CallFindById (vendorId input)) in
  match vendor with
  | None => ret (not_found "Vendor not found")
  | Some vendor =>
    let* product :=
      await (findByVendorIdAndPath (vendorId input) (path input))
            (CallFindByVendorIdAndPath (vendorId input) (path input)) in
    match product with
    | None => ret (not_found "Product not found")
    | Some product =>
      let resourceInfo := resourceInfo_of input product in
      let resourceConfig := resourceConfig_of vendor product in
      let* requirements :=
        await (buildPaymentRequirements resourceConfig)
              (CallBuildPaymentRequirements resourceConfig) in
      match paymentHeader input with
      | None | Some EmptyString =>
        let* paymentRequired :=
          call (createPaymentRequiredResponse requirements resourceInfo)
               (CallCreatePaymentRequiredResponse requirements resourceInfo) in
        ret (payment_required paymentRequired)
      | Some header =>
        let* paymentPayload :=
          call (parsePaymentHeader header) (CallParsePaymentHeader header) in
        let* matchingRequirements :=
          call (findMatchingRequirements requirements paymentPayload)
               (CallFindMatchingRequirements requirements paymentPayload) in
        match matchingRequirements with
        | None =>
          let* paymentRequired :=
            call (createPaymentRequiredResponse requirements resourceInfo)
                 (CallCreatePaymentRequiredResponse requirements resourceInfo) in
          ret (payment_required paymentRequired)
        | Some matchingRequirements =>
          let* verifyResult :=
            await (verifyPayment paymentPayload matchingRequirements)
                  (CallVerifyPayment paymentPayload matchingRequirements) in
          if negb (VerifyResponse.isValid verifyResult) then
            ret (verification_failed
                   (nullish (VerifyResponse.invalidReason verifyResult)
                            "Unknown verification error"))
          else
            let* settleResult :=
              await (settlePayment paymentPayload matchingRequirements)
                    (CallSettlePayment paymentPayload matchingRequirements) in
            if negb (SettleResponse.success settleResult) then
              ret (settlement_failed
                     (nullish (SettleResponse.errorReason settleResult)
                              "Unknown settlement error"))
            else
              ret (success settleResult product)
        end
      end
    end
  end.

(** One invocation, from a world and an empty trace. *)
Definition run (input : ProcessX402Input) (w : W)
  : Res ProcessX402Result * St W :=
  execute input {| world := w; trace := [] |}.
End ProcessX402Request.


(** ** The test doubles *)

(** [InMemoryVendorRepository]: a [Map] from vendor id to vendor. *)
Module InMemoryVendorRepository.
Definition save (vendor : Vendor.t) (vendors : gmap string Vendor.t)
  : gmap string Vendor.t :=
  <[Vendor.id vendor := vendor]> vendors.

Definition findById (id : string) (vendors : gmap string Vendor.t)
  : option Vendor.t :=
  vendors !! id.
End InMemoryVendorRepository.

(** [InMemoryProductRepository]: a [Map] from product id to product, read in
    insertion order by [values()]; [set] on a present key keeps its place. *)
Module InMemoryProductRepository.
Fixpoint save (product : Product.t) (products : list (string * Product.t))
  : list (string * Product.t) :=
  match products with
  | [] => [(Product.id product, product)]
  | (k, p) :: rest =>
    if String.eqb k (Product.id product) then (k, product) :: rest
    else (k, p) :: save product rest
  end.

Fixpoint findByVendorIdAndPath (vendorId path : string)
  (products : list (string * Product.t)) : option Product.t :=
  match products with
  | [] => None
  | (_, product) :: rest =>
    if String.eqb (Product.vendorId product) vendorId
       && String.eqb (Product.path product) path
    then Some product
    else findByVendorIdAndPath vendorId path rest
  end.

(** [products.get(id) ?? null]. *)
Fixpoint findById (id : string) (products : list (string * Product.t))
  : option Product.t :=
  match products with
  | [] => None
  | (k, product) :: rest =>
    if String.eqb k id then Some product else findById id rest
  end.

(** [Array.from(products.values()).filter(p => p.vendorId === vendorId)]. *)
Definition findByVendorId (vendorId : string)
  (products : list (string * Product.t)) : list Product.t :=
  List.filter (fun p => String.eqb (Product.vendorId p) vendorId)
              (List.map snd products).

(** The entries of a [Map] filled by [save]: no key twice, and every product
    under its own id. *)
Definition well_keyed (products : list (string * Product.t)) : Prop :=
  NoDup (List.map fst products)
  /\ Forall (fun entry => fst entry = Product.id (snd entry)) products.

(** The repository after saving the products of a list, in order. *)
Definition saved (l : list Product.t) : list (string * Product.t) :=
  List.fold_left (fun products product => save product products) l [].
End InMemoryProductRepository.

(** [MockPaymentGateway]: the canned responses and the last built
    requirement are its fields. *)
Module MockPaymentGateway.
Record t := mk {
  verifyResult : VerifyResponse.t;
  settleResult : SettleResponse.t;
  builtRequirements : option PaymentRequirements.t
}.

(** A fresh mock, as its field initialisers give it. *)
Definition new : t :=
  {| verifyResult :=
       {| VerifyResponse.isValid := true;
          VerifyResponse.invalidReason := None;
          VerifyResponse.payer := Some "0x1234" |};
     settleResult :=
       {| SettleResponse.success := true;
          SettleResponse.errorReason := None;
          SettleResponse.transaction := "0xabc123";
          SettleResponse.network := "eip155:84532";
          SettleResponse.payer := Some "0x1234" |};
     builtRequirements := None |}.

Definition buildPaymentRequirements (config : ResourceConfig.t) (this : t)
  : list PaymentRequirements.t * t :=
  let built :=
    {| PaymentRequirements.scheme := ResourceConfig.scheme config;
       PaymentRequirements.network := ResourceConfig.network config;
       PaymentRequirements.asset := "0x036CbD53842c5426634e7929541eC2318f3dCF7e";
       PaymentRequirements.amount := "1000";
       PaymentRequirements.payTo := ResourceConfig.payTo config;
       PaymentRequirements.maxTimeoutSeconds :=
         match ResourceConfig.maxTimeoutSeconds config with
         | Some seconds => seconds
         | None => 60
         end;
       PaymentRequirements.extra := [] |} in
  ([built],
   {| verifyResult := verifyResult this;
      settleResult := settleResult this;
      builtRequirements := Some built |}).

Definition createPaymentRequiredResponse
  (requirements : list PaymentRequirements.t) (resourceInfo : ResourceInfo.t)
  : PaymentRequired.t :=
  {| PaymentRequired.x402Version := 2;
     PaymentRequired.accepts := requirements;
     PaymentRequired.resource := resourceInfo |}.

Definition verifyPayment (_payload : PaymentPayload.t)
  (_requirements : PaymentRequirements.t) (this : t) : VerifyResponse.t :=
  verifyResult this.

Definition settlePayment (_payload : PaymentPayload.t)
  (_requirements : PaymentRequirements.t) (this : t) : SettleResponse.t :=
  settleResult this.

(** The callback of [find]: [===] on scheme and on network. *)
Definition matches (paymentPayload : PaymentPayload.t)
  (r : PaymentRequirements.t) : bool :=
  String.eqb (PaymentRequirements.scheme r)
             (PaymentRequirements.scheme (PaymentPayload.accepted paymentPayload))
  && String.eqb
       (PaymentRequirements.network r)
       (PaymentRequirements.network (PaymentPayload.accepted paymentPayload)).

Definition findMatchingRequirements
  (availableRequirements : list PaymentRequirements.t)
  (paymentPayload : PaymentPayload.t) : option PaymentRequirements.t :=
  List.find (matches paymentPayload) availableRequirements.
End MockPaymentGateway.

(** The world of the test file: the two repositories and the mock. *)
Record TestWorld := mkTestWorld {
  vendors : gmap string Vendor.t;
  products : list (string * Product.t);
  gateway : MockPaymentGateway.t
}.

Section TestDoubles.
(** [JSON.parse(Buffer.from(header, "base64").toString("utf-8"))] of the
    platform, at its declared result type: the decoded payload, or the
    [SyntaxError] it throws.  The source returns whatever JSON value the
    text holds; a value that is not of the shape of a [PaymentPayload]
    (the object without [accepted], say, on which the mock's [find] callback
    then throws a [TypeError]) has no counterpart here, and the statements
    about the mock hold for headers that decode to a payload of the declared
    shape or that [JSON.parse] rejects. *)
Variable decodeHeader : string -> Res PaymentPayload.t.

Definition inMemoryVendorRepository : IVendorRepository TestWorld :=
  {| findById id w :=
       (Returned (InMemoryVendorRepository.findById id (vendors w)), w) |}.

Definition inMemoryProductRepository : IProductRepository TestWorld :=
  {| findByVendorIdAndPath vendorId path w :=
       (Returned
          (InMemoryProductRepository.findByVendorIdAndPath
             vendorId path (products w)), w) |}.

Definition mockPaymentGateway : IPaymentGateway TestWorld :=
  {| buildPaymentRequirements config w :=
       let (built, this) :=
         MockPaymentGateway.buildPaymentRequirements config (gateway w) in
       (Returned built,
        {| vendors := vendors w; products := products w; gateway := this |});
     createPaymentRequiredResponse requirements resourceInfo :=
       Returned
         (MockPaymentGateway.createPaymentRequiredResponse
            requirements resourceInfo);
     parsePaymentHeader header := decodeHeader header;
     findMatchingRequirements availableRequirements paymentPayload :=
       Returned
         (MockPaymentGateway.findMatchingRequirements
            availableRequirements paymentPayload);
     verifyPayment payload requirements w :=
       (Returned
          (MockPaymentGateway.verifyPayment payload requirements (gateway w)),
        w);
     settlePayment payload requirements w :=
       (Returned
          (MockPaymentGateway.settlePayment payload requirements (gateway w)),
        w) |}.

(** [processX402Request.execute(input)] of the test file. *)
Definition test_run (input : ProcessX402Input) (w : TestWorld)
  : Res ProcessX402Result * St TestWorld :=
  @run TestWorld inMemoryVendorRepository inMemoryProductRepository
       mockPaymentGateway input w.
End TestDoubles.

(** ** The fixture of the test file *)

Module Fixture.
Definition testVendor : Vendor.t :=
  {| Vendor.id := "vendor-1";
     Vendor.name := "Test Vendor";
     Vendor.evmAddress := "0x1234567890123456789012345678901234567890";
     Vendor.apiKey := "key-1" |}.

Definition testProduct : Product.t :=
  {| Product.id := "product-1";
     Product.vendorId := Vendor.id testVendor;
     Product.path := "weather";
     Product.price := "$0.001";
     Product.network := "eip155:84532";
     Product.description := "Weather API";
     Product.mimeType := "application/json";
     Product.data := "weather: sunny, temp: 25";
     Product.status := ACTIVE;
     Product.createdAt := 1704067200000 |}.

(** The state [beforeEach] leaves. *)
Definition world0 : TestWorld :=
  {| vendors := InMemoryVendorRepository.save testVendor ∅;
     products := InMemoryProductRepository.save testProduct [];
     gateway := MockPaymentGateway.new |}.

Definition resource : ResourceInfo.t :=
  {| ResourceInfo.url := "http://localhost:3000/vendor1/weather";
     ResourceInfo.description := Product.description testProduct;
     ResourceInfo.mimeType := Product.mimeType testProduct |}.

(** [requirements[0]] of the mock for the test vendor on a network. *)
Definition requirementOn (network : string) : PaymentRequirements.t :=
  {| PaymentRequirements.scheme := "exact";
     PaymentRequirements.network := network;
     PaymentRequirements.asset := "0x036CbD53842c5426634e7929541eC2318f3dCF7e";
     PaymentRequirements.amount := "1000";
     PaymentRequirements.payTo := Vendor.evmAddress testVendor;
     PaymentRequirements.maxTimeoutSeconds := 60;
     PaymentRequirements.extra := [] |}.

Definition payloadOn (network : string) : PaymentPayload.t :=
  {| PaymentPayload.x402Version := 2;
     PaymentPayload.resource := resource;
     PaymentPayload.accepted := requirementOn network;
     PaymentPayload.payload := [("signature", "0xvalidSignature")] |}.

(** The proof the tests send: base64 of the JSON text of
    [payloadOn "eip155:84532"]. *)
Definition validHeader : string :=
  "eyJ4NDAyVmVyc2lvbiI6MiwicmVzb3VyY2UiOnsidXJsIjoiaHR0cDovL2xvY2FsaG9zdDozMDAwL3ZlbmRvcjEvd2VhdGhlciIsImRlc2NyaXB0aW9uIjoiV2VhdGhlciBBUEkiLCJtaW1lVHlwZSI6ImFwcGxpY2F0aW9uL2pzb24ifSwiYWNjZXB0ZWQiOnsic2NoZW1lIjoiZXhhY3QiLCJuZXR3b3JrIjoiZWlwMTU1Ojg0NTMyIiwiYXNzZXQiOiIweDAzNkNiRDUzODQyYzU0MjY2MzRlNzkyOTU0MWVDMjMxOGYzZENGN2UiLCJhbW91bnQiOiIxMDAwIiwicGF5VG8iOiIweDEyMzQ1Njc4OTAxMjM0NTY3ODkwMTIzNDU2Nzg5MDEyMzQ1Njc4OTAiLCJtYXhUaW1lb3V0U2Vjb25kcyI6NjAsImV4dHJhIjp7fX0sInBheWxvYWQiOnsic2lnbmF0dXJlIjoiMHh2YWxpZFNpZ25hdHVyZSJ9fQ==".

(** A proof built against another network: base64 of the JSON text of
    [payloadOn "eip155:1"]. *)
Definition staleHeader : string :=
  "eyJ4NDAyVmVyc2lvbiI6MiwicmVzb3VyY2UiOnsidXJsIjoiaHR0cDovL2xvY2FsaG9zdDozMDAwL3ZlbmRvcjEvd2VhdGhlciIsImRlc2NyaXB0aW9uIjoiV2VhdGhlciBBUEkiLCJtaW1lVHlwZSI6ImFwcGxpY2F0aW9uL2pzb24ifSwiYWNjZXB0ZWQiOnsic2NoZW1lIjoiZXhhY3QiLCJuZXR3b3JrIjoiZWlwMTU1OjEiLCJhc3NldCI6IjB4MDM2Q2JENTM4NDJjNTQyNjYzNGU3OTI5NTQxZUMyMzE4ZjNkQ0Y3ZSIsImFtb3VudCI6IjEwMDAiLCJwYXlUbyI6IjB4MTIzNDU2Nzg5MDEyMzQ1Njc4OTAxMjM0NTY3ODkwMTIzNDU2Nzg5MCIsIm1heFRpbWVvdXRTZWNvbmRzIjo2MCwiZXh0cmEiOnt9fSwicGF5bG9hZCI6eyJzaWduYXR1cmUiOiIweHZhbGlkU2lnbmF0dXJlIn19".

(** Base64 of the text [not json], which [JSON.parse] rejects. *)
Definition malformedHeader : string := "bm90IGpzb24=".

Definition syntaxError : JsError :=
  {| errorName := "SyntaxError"; errorMessage := "JSON Parse error" |}.

(** The platform decoder tabulated at the three headers the cases use: the
    two proofs decode to their payloads and the text [not json] is rejected
    with a [SyntaxError] (its message is abbreviated).  No case evaluates
    it at another header, where it does not speak for the platform. *)
Definition decodeHeader (header : string) : Res PaymentPayload.t :=
  if String.eqb header validHeader then Returned (payloadOn "eip155:84532")
  else if String.eqb header staleHeader then Returned (payloadOn "eip155:1")
  else Thrown syntaxError.

Definition request (path : string) (header : option string) : ProcessX402Input :=
  {| vendorId := Vendor.id testVendor;
     path := path;
     resourceUrl := "http://localhost:3000/vendor1/weather";
     paymentHeader := header |}.

(** The request of the unknown-vendor test. *)
Definition unknownVendorRequest : ProcessX402Input :=
  {| vendorId := "non-existent";
     path := "weather";
     resourceUrl := "http://localhost:3000/non-existent/weather";
     paymentHeader := None |}.

(** The mock with [verifyResult] replaced, as the failed-verification test
    does. *)
Definition withVerifyResult (v : VerifyResponse.t) (w : TestWorld) : TestWorld :=
  {| vendors := vendors w;
     products := products w;
     gateway :=
       {| MockPaymentGateway.verifyResult := v;
          MockPaymentGateway.settleResult :=
            MockPaymentGateway.settleResult (gateway w);
          MockPaymentGateway.builtRequirements :=
            MockPaymentGateway.builtRequirements (gateway w) |} |}.

(** The mock with [settleResult] replaced, as the failed-settlement test
    does. *)
Definition withSettleResult (s : SettleResponse.t) (w : TestWorld) : TestWorld :=
  {| vendors := vendors w;
     products := products w;
     gateway :=
       {| MockPaymentGateway.verifyResult :=
            MockPaymentGateway.verifyResult (gateway w);
          MockPaymentGateway.settleResult := s;
          MockPaymentGateway.builtRequirements :=
            MockPaymentGateway.builtRequirements (gateway w) |} |}.

Definition invalidSignature : VerifyResponse.t :=
  {| VerifyResponse.isValid := false;
     VerifyResponse.invalidReason := Some "Invalid signature";
     VerifyResponse.payer := None |}.

Definition insufficientFunds : SettleResponse.t :=
  {| SettleResponse.success := false;
     SettleResponse.errorReason := Some "Insufficient funds";
     SettleResponse.transaction := EmptyString;
     SettleResponse.network := "eip155:84532";
     SettleResponse.payer := None |}.

(** A second product of the test vendor on the path of the first, under an
    id of its own. *)
Definition secondProduct : Product.t :=
  {| Product.id := "product-2";
     Product.vendorId := Vendor.id testVendor;
     Product.path := "weather";
     Product.price := "$9";
     Product.network := "eip155:1";
     Product.description := "Other";
     Product.mimeType := "text/plain";
     Product.data := "other";
     Product.status := ACTIVE;
     Product.createdAt := 1704067200001 |}.

(** The test world before [beforeEach] saves anything. *)
Definition emptyWorld : TestWorld :=
  {| vendors := ∅; products := []; gateway := MockPaymentGateway.new |}.

(** The mock of the test file, on the decoder above. *)
Definition mockGateway : IPaymentGateway TestWorld :=
  mockPaymentGateway decodeHeader.

(** A failed verification and a failed settlement that give no reason. *)
Definition invalidWithoutReason : VerifyResponse.t :=
  {| VerifyResponse.isValid := false;
     VerifyResponse.invalidReason := None;
     VerifyResponse.payer := None |}.

Definition failedWithoutReason : SettleResponse.t :=
  {| SettleResponse.success := false;
     SettleResponse.errorReason := None;
     SettleResponse.transaction := EmptyString;
     SettleResponse.network := "eip155:84532";
     SettleResponse.payer := None |}.

(** The state after the mock built the requirements of the test product. *)
Definition built (w : TestWorld) : TestWorld :=
  {| vendors := vendors w;
     products := products w;
     gateway :=
       {| MockPaymentGateway.verifyResult :=
            MockPaymentGateway.verifyResult (gateway w);
          MockPaymentGateway.settleResult :=
            MockPaymentGateway.settleResult (gateway w);
          MockPaymentGateway.builtRequirements :=
            Some (requirementOn "eip155:84532") |} |}.

(** The requirements the mock builds for the test product, and the
    challenge it creates from them. *)
Definition current : list PaymentRequirements.t := [requirementOn "eip155:84532"].

Definition challenge : PaymentRequired.t :=
  {| PaymentRequired.x402Version := 2;
     PaymentRequired.accepts := current;
     PaymentRequired.resource := resource |}.
End Fixture.

(** ** Vocabulary of the properties *)

(** The number of [settlePayment] calls in a trace. *)
Definition settle_calls (tr : list Call) : nat :=
  length (List.filter is_settle tr).

(** No [verifyPayment] and no [settlePayment] call. *)
Definition no_mutating_calls (tr : list Call) : Prop :=
  Forall (fun c => is_verify c = false /\ is_settle c = false) tr.

(** Calls that handle a proof: decoding, matching, verification,
    settlement. *)
Definition handles_proof (c : Call) : bool :=
  match c with
  | CallParsePaymentHeader _ _
  | CallFindMatchingRequirements _ _ _
  | CallVerifyPayment _ _ _
  | CallSettlePayment _ _ _ => true
  | _ => false
  end.

(** The request with its payment header left out. *)
Definition without_header (input : ProcessX402Input) : ProcessX402Input :=
  {| vendorId := vendorId input;
     path := path input;
     resourceUrl := resourceUrl input;
     paymentHeader := None |}.

(** The no-proof path (no header, or an empty one) and the no-match path
    (the match found nothing). *)
Definition no_proof_or_no_match (input : ProcessX402Input) (tr : list Call) : Prop :=
  paymentHeader input = None
  \/ paymentHeader input = Some EmptyString
  \/ exists requirements payload,
       In (CallFindMatchingRequirements requirements payload (Returned None)) tr.

(** The calls of an invocation whose vendor and product resolve and whose
    requirements are built. *)
Definition resolved_calls (input : ProcessX402Input) (vendor : Vendor.t)
  (product : Product.t) (requirements : list PaymentRequirements.t) : list Call :=
  [ CallFindById (vendorId input) (Returned (Some vendor));
    CallFindByVendorIdAndPath (vendorId input) (path input)
      (Returned (Some product));
    CallBuildPaymentRequirements
      {| ResourceConfig.scheme := "exact";
         ResourceConfig.network := Product.network product;
         ResourceConfig.price := Product.price product;
         ResourceConfig.payTo := Vendor.evmAddress vendor;
         ResourceConfig.maxTimeoutSeconds := Some 60 |}
      (Returned requirements) ].

(** The resource descriptor of a request for a product. *)
Definition resolved_resource (input : ProcessX402Input) (product : Product.t)
  : ResourceInfo.t :=
  {| ResourceInfo.url := resourceUrl input;
     ResourceInfo.description := Product.description product;
     ResourceInfo.mimeType := Product.mimeType product |}.

(** The calls up to the decoding of the proof. *)
Definition supplied_calls (input : ProcessX402Input) (vendor : Vendor.t)
  (product : Product.t) (requirements : list PaymentRequirements.t)
  (header : string) (payload : PaymentPayload.t) : list Call :=
  resolved_calls input vendor product requirements
  ++ [CallParsePaymentHeader header (Returned payload)].

(** The calls up to the verification. *)
Definition verified_calls (input : ProcessX402Input) (vendor : Vendor.t)
  (product : Product.t) (requirements : list PaymentRequirements.t)
  (header : string) (payload : PaymentPayload.t)
  (matching : PaymentRequirements.t) (verified : VerifyResponse.t) : list Call :=
  supplied_calls input vendor product requirements header payload
  ++ [CallFindMatchingRequirements requirements payload
        (Returned (Some matching));
      CallVerifyPayment payload matching (Returned verified)].

(** *** Port contracts of the payee ([MockPaymentGateway] implements both) *)

(** [buildPaymentRequirements] answers with a non-empty list whose first
    entry pays the [payTo] of the request. *)
Definition BuildKeepsPayee {W} `{IPaymentGateway W} : Prop :=
  forall config w requirements w',
    buildPaymentRequirements config w = (Returned requirements, w') ->
    exists first rest,
      requirements = first :: rest
      /\ PaymentRequirements.payTo first = ResourceConfig.payTo config.

(** [createPaymentRequiredResponse] puts the requirements it is given in
    [accepts]. *)
Definition ChallengeAcceptsRequirements {W} `{IPaymentGateway W} : Prop :=
  forall requirements resourceInfo paymentRequired,
    createPaymentRequiredResponse requirements resourceInfo
    = Returned paymentRequired ->
    PaymentRequired.accepts paymentRequired = requirements.

(** *** Deterministic lookups and build *)

(** [after_reads w w']: the collaborators went from state [w] to [w'] through
    lookups and builds only. *)
Inductive after_reads {W} `{IVendorRepository W} `{IProductRepository W}
  `{IPaymentGateway W} (w : W) : W -> Prop :=
| after_none : after_reads w w
| after_findById id w' :
    after_reads w w' -> after_reads w (snd (findById id w'))
| after_findByVendorIdAndPath vendorId path w' :
    after_reads w w' ->
    after_reads w (snd (findByVendorIdAndPath vendorId path w'))
| after_buildPaymentRequirements config w' :
    after_reads w w' ->
    after_reads w (snd (buildPaymentRequirements config w')).

(** Deterministic lookups and build: the same call completes the same way
    however many lookups and builds ran in between. *)
Definition DeterministicLookups {W} `{IVendorRepository W}
  `{IProductRepository W} `{IPaymentGateway W} : Prop :=
  forall w w',
    after_reads w w' ->
    (forall id, fst (findById id w') = fst (findById id w))
    /\ (forall vendorId path,
          fst (findByVendorIdAndPath vendorId path w')
          = fst (findByVendorIdAndPath vendorId path w))
    /\ (forall config,
          fst (buildPaymentRequirements config w')
          = fst (buildPaymentRequirements config w)).

(** ** Vocabulary of the further properties *)

(** The operation a recorded call belongs to. *)
Inductive Operation :=
| OpFindById | OpFindByVendorIdAndPath | OpBuildPaymentRequirements
| OpCreatePaymentRequiredResponse | OpParsePaymentHeader
| OpFindMatchingRequirements | OpVerifyPayment | OpSettlePayment.

Definition operation (c : Call) : Operation :=
  match c with
  | CallFindById _ _ => OpFindById
  | CallFindByVendorIdAndPath _ _ _ => OpFindByVendorIdAndPath
  | CallBuildPaymentRequirements _ _ => OpBuildPaymentRequirements
  | CallCreatePaymentRequiredResponse _ _ _ => OpCreatePaymentRequiredResponse
  | CallParsePaymentHeader _ _ => OpParsePaymentHeader
  | CallFindMatchingRequirements _ _ _ => OpFindMatchingRequirements
  | CallVerifyPayment _ _ _ => OpVerifyPayment
  | CallSettlePayment _ _ _ => OpSettlePayment
  end.

Definition operation_eqb (a b : Operation) : bool :=
  match a, b with
  | OpFindById, OpFindById
  | OpFindByVendorIdAndPath, OpFindByVendorIdAndPath
  | OpBuildPaymentRequirements, OpBuildPaymentRequirements
  | OpCreatePaymentRequiredResponse, OpCreatePaymentRequiredResponse
  | OpParsePaymentHeader, OpParsePaymentHeader
  | OpFindMatchingRequirements, OpFindMatchingRequirements
  | OpVerifyPayment, OpVerifyPayment
  | OpSettlePayment, OpSettlePayment => true
  | _, _ => false
  end.

(** The number of calls of an operation in a trace. *)
Definition calls_of (o : Operation) (tr : list Call) : nat :=
  length (List.filter (fun c => operation_eqb (operation c) o) tr).

(** Port contract ([MockPaymentGateway] implements it):
    [findMatchingRequirements] answers with an entry of the list it is
    given. *)
Definition MatchSelectsFromList {W} `{IPaymentGateway W} : Prop :=
  forall requirements payload matching,
    findMatchingRequirements requirements payload = Returned (Some matching) ->
    In matching requirements.

(** A product with its lifecycle status replaced. *)
Definition withStatus (status : ProductStatus) (product : Product.t) : Product.t :=
  {| Product.id := Product.id product;
     Product.vendorId := Product.vendorId product;
     Product.path := Product.path product;
     Product.price := Product.price product;
     Product.network := Product.network product;
     Product.description := Product.description product;
     Product.mimeType := Product.mimeType product;
     Product.data := Product.data product;
     Product.status := status;
     Product.createdAt := Product.createdAt product |}.

(** The test world with every stored product given a status. *)
Definition withAllStatus (status : ProductStatus) (w : TestWorld) : TestWorld :=
  {| vendors := vendors w;
     products :=
       List.map (fun entry => (fst entry, withStatus status (snd entry)))
                (products w);
     gateway := gateway w |}.

(** A result with the status of the product it releases replaced. *)
Definition result_withStatus (status : ProductStatus) (r : Res ProcessX402Result)
  : Res ProcessX402Result :=
  match r with
  | Returned (success settleResponse product) =>
    Returned (success settleResponse (withStatus status product))
  | _ => r
  end.

(** ** Properties of [execute] *)

(** Case analysis on every collaborator completion and every branch. *)
Ltac no_inner_match x :=
  lazymatch x with
  | context [match _ with _ => _ end] => fail
  | _ => idtac
  end.

Ltac completion_cases :=
  repeat match goal with
  | |- context [let (_, _) := ?x in _] =>
    no_inner_match x; destruct x as [[?|?] ?] eqn:?; simpl
  | |- context [match ?x with _ => _ end] =>
    no_inner_match x; destruct x eqn:?; simpl
  end.

Ltac run_cases :=
  unfold run, execute, bind, await, call, ret; simpl; completion_cases.

Section Settlement.
Context {W : Type}.
Context {vendorRepository : IVendorRepository W}.
Context {productRepository : IProductRepository W}.
Context {paymentGateway : IPaymentGateway W}.

(** C1: in every invocation [settlePayment] is called at most once; when it
    is called, the trace is exactly the two lookups, the build, the decoding
    of the supplied header, the match, a [verifyPayment] on the decoded proof
    and the matched requirement that returned [isValid] true, and then the
    one [settlePayment] on the same proof and requirement; and when a
    [verifyPayment] returned [isValid] false there is no [settlePayment]. *)
Theorem settle_at_most_once_after_valid_verify (input : ProcessX402Input) (w : W) :
  let tr := trace (snd (run input w)) in
  (settle_calls tr <= 1)%nat
  /\ (forall payload matching settled,
        In (CallSettlePayment payload matching settled) tr ->
        exists vendor product requirements header verified,
          paymentHeader input = Some header
          /\ VerifyResponse.isValid verified = true
          /\ tr =
             [ CallFindById (vendorId input) (Returned (Some vendor));
               CallFindByVendorIdAndPath (vendorId input) (path input)
                 (Returned (Some product));
               CallBuildPaymentRequirements (resourceConfig_of vendor product)
                 (Returned requirements);
               CallParsePaymentHeader header (Returned payload);
               CallFindMatchingRequirements requirements payload
                 (Returned (Some matching));
               CallVerifyPayment payload matching (Returned verified);
               CallSettlePayment payload matching settled ])
  /\ (forall payload matching verified,
        In (CallVerifyPayment payload matching (Returned verified)) tr ->
        VerifyResponse.isValid verified = false ->
        settle_calls tr = 0%nat).
Proof.
  run_cases.
  all: (split; [ cbv; lia | split ]).
  all: simpl; intros; intuition (try discriminate).
  all: repeat match goal with
       | H : CallSettlePayment _ _ _ = CallSettlePayment _ _ _ |- _ =>
         injection H as <- <- <-
       | H : CallVerifyPayment _ _ _ = CallVerifyPayment _ _ _ |- _ =>
         injection H as <- <- <-
       | H : negb ?b = false |- _ => apply negb_false_iff in H
       | H : negb ?b = true |- _ => apply negb_true_iff in H
       end.
  all: try congruence.
  all: try (do 5 eexists; repeat split; eauto; fail).
Qed.
End Settlement.

(** Evaluation of a run along completions that are known. *)
Ltac run_known :=
  unfold run, execute, bind, await, call, ret; simpl;
  repeat (match goal with
          | H : _ = _ |- _ => rewrite H
          end; simpl).

(** *** The matching of [MockPaymentGateway.findMatchingRequirements] *)

Lemma matches_iff (paymentPayload : PaymentPayload.t) (r : PaymentRequirements.t) :
  MockPaymentGateway.matches paymentPayload r = true <->
  PaymentRequirements.scheme r
    = PaymentRequirements.scheme (PaymentPayload.accepted paymentPayload)
  /\ PaymentRequirements.network r
     = PaymentRequirements.network (PaymentPayload.accepted paymentPayload).
Proof.
  unfold MockPaymentGateway.matches.
  rewrite andb_true_iff, !String.eqb_eq. reflexivity.
Qed.

Lemma findMatchingRequirements_none
  (requirements : list PaymentRequirements.t) (paymentPayload : PaymentPayload.t) :
  (forall r, In r requirements ->
     ~ (PaymentRequirements.scheme r
          = PaymentRequirements.scheme (PaymentPayload.accepted paymentPayload)
        /\ PaymentRequirements.network r
           = PaymentRequirements.network
               (PaymentPayload.accepted paymentPayload))) ->
  MockPaymentGateway.findMatchingRequirements requirements paymentPayload = None.
Proof.
  unfold MockPaymentGateway.findMatchingRequirements.
  induction requirements as [|r rest IH]; intros Hno; simpl; [reflexivity|].
  destruct (MockPaymentGateway.matches paymentPayload r) eqn:Hm.
  - apply matches_iff in Hm. exfalso. apply (Hno r); [left; reflexivity | exact Hm].
  - apply IH. intros r' Hin. apply Hno. right. exact Hin.
Qed.

(** First match wins: the entry returned matches, and no entry before it
    does. *)
Lemma findMatchingRequirements_first
  (requirements : list PaymentRequirements.t) (paymentPayload : PaymentPayload.t)
  (r : PaymentRequirements.t) :
  MockPaymentGateway.findMatchingRequirements requirements paymentPayload = Some r ->
  exists before after,
    requirements = before ++ r :: after
    /\ MockPaymentGateway.matches paymentPayload r = true
    /\ Forall (fun r' => MockPaymentGateway.matches paymentPayload r' = false)
         before.
Proof.
  unfold MockPaymentGateway.findMatchingRequirements.
  induction requirements as [|r0 rest IH]; simpl; [discriminate|].
  destruct (MockPaymentGateway.matches paymentPayload r0) eqn:Hm.
  - intros [= <-]. exists [], rest. repeat split; [exact Hm | constructor].
  - intros Hfind. destruct (IH Hfind) as (before & after & -> & Hr & Hbefore).
    exists (r0 :: before), after. repeat split; [exact Hr | constructor; assumption].
Qed.

Section Lookups.
Context {W : Type}.
Context {vendorRepository : IVendorRepository W}.
Context {productRepository : IProductRepository W}.
Context {paymentGateway : IPaymentGateway W}.

(** C4: an unknown vendor gives [not_found] with reason [Vendor not found],
    whatever the path, and no product lookup is made; a known vendor with an
    unknown (vendor, path) gives [not_found] with reason [Product not found];
    the first call of every invocation is the vendor lookup, and a product
    lookup is only ever the second call, after a vendor was found. *)
Theorem not_found_vendor_before_product (input : ProcessX402Input) (w : W) :
  (forall w1,
     findById (vendorId input) w = (Returned None, w1) ->
     run input w
     = (Returned (not_found "Vendor not found"),
        {| world := w1;
           trace := [CallFindById (vendorId input) (Returned None)] |}))
  /\ (forall vendor w1 w2,
        findById (vendorId input) w = (Returned (Some vendor), w1) ->
        findByVendorIdAndPath (vendorId input) (path input) w1
        = (Returned None, w2) ->
        run input w
        = (Returned (not_found "Product not found"),
           {| world := w2;
              trace :=
                [CallFindById (vendorId input) (Returned (Some vendor));
                 CallFindByVendorIdAndPath (vendorId input) (path input)
                   (Returned None)] |}))
  /\ (exists found rest,
        trace (snd (run input w))
        = CallFindById (vendorId input) found :: rest
        /\ forall v p r,
             In (CallFindByVendorIdAndPath v p r) rest ->
             (exists vendor, found = Returned (Some vendor))
             /\ exists rest', rest = CallFindByVendorIdAndPath v p r :: rest').
Proof.
  split; [|split].
  - intros w1 Hv. run_known. reflexivity.
  - intros vendor w1 w2 Hv Hp. run_known. reflexivity.
  - run_cases.
    all: eexists; eexists; split; [reflexivity|].
    all: simpl; intros v p r Hin; intuition (try discriminate).
    all: eauto.
    all: match goal with
         | H : CallFindByVendorIdAndPath _ _ _ = CallFindByVendorIdAndPath _ _ _
           |- _ => injection H as <- <- <-
         end; eexists; reflexivity.
Qed.
End Lookups.

Section Resolved.
Context {W : Type}.
Context {vendorRepository : IVendorRepository W}.
Context {productRepository : IProductRepository W}.
Context {paymentGateway : IPaymentGateway W}.

(** A request whose vendor and product resolve and whose requirements are
    built. *)
Variable input : ProcessX402Input.
Variables w w1 w2 w3 : W.
Variable vendor : Vendor.t.
Variable product : Product.t.
Variable requirements : list PaymentRequirements.t.

Hypothesis vendor_found :
  findById (vendorId input) w = (Returned (Some vendor), w1).
Hypothesis product_found :
  findByVendorIdAndPath (vendorId input) (path input) w1
  = (Returned (Some product), w2).
Hypothesis requirements_built :
  buildPaymentRequirements (resourceConfig_of vendor product) w2
  = (Returned requirements, w3).

(** C5: with no payment proof and a resolvable vendor and product the result
    is [payment_required]; the build request carries scheme [exact], the
    product's network and price, the vendor's payout address and the timeout
    60; and, for a gateway that keeps the payee, the first requirement of the
    returned challenge pays the vendor's payout address. *)
Theorem no_proof_payment_required (paymentRequired : PaymentRequired.t) :
  paymentHeader input = None ->
  createPaymentRequiredResponse requirements (resolved_resource input product)
  = Returned paymentRequired ->
  BuildKeepsPayee ->
  ChallengeAcceptsRequirements ->
  run input w
  = (Returned (payment_required paymentRequired),
     {| world := w3;
        trace :=
          resolved_calls input vendor product requirements
          ++ [CallCreatePaymentRequiredResponse requirements
                (resolved_resource input product) (Returned paymentRequired)] |})
  /\ exists first rest,
       PaymentRequired.accepts paymentRequired = first :: rest
       /\ PaymentRequirements.payTo first = Vendor.evmAddress vendor.
Proof.
  intros Hheader Hcreate Hbuild Haccepts. split.
  - unfold run, execute, bind, await, call, ret; simpl.
    rewrite vendor_found; simpl. rewrite product_found; simpl.
    rewrite requirements_built; simpl. rewrite Hheader.
    change (resourceInfo_of input product) with (resolved_resource input product).
    rewrite Hcreate. reflexivity.
  - destruct (Hbuild _ _ _ _ requirements_built) as (first & rest & -> & Hpay).
    exists first, rest. split; [|exact Hpay].
    exact (Haccepts _ _ _ Hcreate).
Qed.

Section Supplied.
(** A non-empty payment header that the gateway decodes. *)
Variable header : string.
Variable payload : PaymentPayload.t.

Hypothesis header_supplied : paymentHeader input = Some header.
Hypothesis header_nonempty : header <> EmptyString.
Hypothesis header_parsed : parsePaymentHeader header = Returned payload.

(** Evaluation of the run up to the decoded proof. *)
Ltac run_supplied :=
  unfold run, execute, bind, await, call, ret; simpl;
  rewrite vendor_found; simpl; rewrite product_found; simpl;
  rewrite requirements_built; simpl; rewrite header_supplied;
  let Hh := fresh "Hh" in
  assert (Hh : exists c rest, header = String c rest)
    by (clear - header_nonempty; destruct header; [congruence | eauto]);
  destruct Hh as (? & ? & Hh); rewrite Hh; simpl; rewrite <- Hh;
  rewrite header_parsed;
  change (resourceInfo_of input product) with (resolved_resource input product).

(** C2: when the scheme and network the proof claims equal those of no
    entry of the freshly built list, under the port's first-match lookup,
    the result is [payment_required] with the challenge the gateway creates
    from the built list and the request's resource descriptor; the claimed
    requirement is not an entry of that list, and neither verification nor
    settlement is called. *)
Theorem no_match_payment_required (paymentRequired : PaymentRequired.t) :
  findMatchingRequirements requirements payload
  = Returned (MockPaymentGateway.findMatchingRequirements requirements payload) ->
  (forall r, In r requirements ->
     ~ (PaymentRequirements.scheme r
          = PaymentRequirements.scheme (PaymentPayload.accepted payload)
        /\ PaymentRequirements.network r
           = PaymentRequirements.network (PaymentPayload.accepted payload))) ->
  createPaymentRequiredResponse requirements (resolved_resource input product)
  = Returned paymentRequired ->
  run input w
  = (Returned (payment_required paymentRequired),
     {| world := w3;
        trace :=
          supplied_calls input vendor product requirements header payload
          ++ [CallFindMatchingRequirements requirements payload (Returned None);
              CallCreatePaymentRequiredResponse requirements
                (resolved_resource input product) (Returned paymentRequired)] |})
  /\ ~ In (PaymentPayload.accepted payload) requirements.
Proof.
  intros Hport Hnone Hcreate. split.
  - apply findMatchingRequirements_none in Hnone. rewrite Hnone in Hport.
    run_supplied. rewrite Hport. rewrite Hcreate. reflexivity.
  - intros Hin. apply (Hnone _ Hin). split; reflexivity.
Qed.

Section Matched.
(** The proof matches an entry of the built list. *)
Variable matching : PaymentRequirements.t.
Variable verified : VerifyResponse.t.
Variable w4 : W.

Hypothesis proof_matched :
  findMatchingRequirements requirements payload = Returned (Some matching).
Hypothesis verify_returned :
  verifyPayment payload matching w3 = (Returned verified, w4).

(** C6: when [verifyPayment] reports the matched proof invalid the result is
    [verification_failed], with the reason the port gave or, when it gave
    none, [Unknown verification error]; the verification is the last call of
    the invocation. *)
Theorem invalid_proof_verification_failed :
  VerifyResponse.isValid verified = false ->
  run input w
  = (Returned
       (verification_failed
          match VerifyResponse.invalidReason verified with
          | Some reason => reason
          | None => "Unknown verification error"
          end),
     {| world := w4; trace :=
          verified_calls input vendor product requirements header payload
            matching verified |}).
Proof.
  intros Hinvalid. run_supplied.
  rewrite proof_matched; simpl. rewrite verify_returned; simpl.
  rewrite Hinvalid. reflexivity.
Qed.

Section Verified.
(** The proof is verified and [settlePayment] returns. *)
Variable settled : SettleResponse.t.
Variable w5 : W.

Hypothesis proof_valid : VerifyResponse.isValid verified = true.
Hypothesis settle_returned :
  settlePayment payload matching w4 = (Returned settled, w5).

(** C7: when [settlePayment] reports failure for the matched, verified proof
    the result is [settlement_failed], with the reason the port gave or,
    when it gave none, [Unknown settlement error]; that result has no
    product, and a result that has one is the [success] variant. *)
Theorem failed_settlement_releases_no_product :
  SettleResponse.success settled = false ->
  let outcome :=
    settlement_failed
      match SettleResponse.errorReason settled with
      | Some reason => reason
      | None => "Unknown settlement error"
      end in
  run input w
  = (Returned outcome,
     {| world := w5;
        trace :=
          verified_calls input vendor product requirements header payload
            matching verified
                 ++ [CallSettlePayment payload matching (Returned settled)] |})
  /\ result_product outcome = None
  /\ forall result released,
       result_product result = Some released ->
       exists settleResponse, result = success settleResponse released.
Proof.
  intros Hfailed outcome. split; [|split].
  - run_supplied.
    rewrite proof_matched; simpl. rewrite verify_returned; simpl.
    rewrite proof_valid; simpl. rewrite settle_returned; simpl.
    rewrite Hfailed. reflexivity.
  - reflexivity.
  - intros [] released; simpl; try discriminate.
    intros [= ->]. eexists; reflexivity.
Qed.

(** C8: when [settlePayment] reports success for the matched, verified proof
    the result is [success] with the response [settlePayment] returned and
    the product the catalog resolved, content payload included. *)
Theorem settled_proof_success :
  SettleResponse.success settled = true ->
  exists outcome,
    run input w
    = (Returned outcome,
       {| world := w5;
          trace :=
          verified_calls input vendor product requirements header payload
            matching verified
                   ++ [CallSettlePayment payload matching (Returned settled)] |})
    /\ outcome = success settled product
    /\ result_type outcome = T_success
    /\ result_product outcome = Some product
    /\ (forall released,
          result_product outcome = Some released ->
          Product.data released = Product.data product).
Proof.
  intros Hsuccess. exists (success settled product). split.
  - run_supplied.
    rewrite proof_matched; simpl. rewrite verify_returned; simpl.
    rewrite proof_valid; simpl. rewrite settle_returned; simpl.
    rewrite Hsuccess. reflexivity.
  - repeat split. simpl. intros released [= <-]. reflexivity.
Qed.
End Verified.
End Matched.
End Supplied.
End Resolved.

Section Exceptions.
Context {W : Type}.
Context {vendorRepository : IVendorRepository W}.
Context {productRepository : IProductRepository W}.
Context {paymentGateway : IPaymentGateway W}.

(** Whichever collaborator call throws, [execute] throws the same error and
    that call is its last. *)
Lemma collaborator_throw_ends_the_run (input : ProcessX402Input) (w : W)
  (c : Call) (e : JsError) :
  In c (trace (snd (run input w))) ->
  call_thrown c = Some e ->
  fst (run input w) = Thrown e /\ last (trace (snd (run input w))) = Some c.
Proof.
  run_cases.
  all: simpl; intros Hin Hthrown.
  all: repeat match goal with
              | H : _ \/ _ |- _ => destruct H as [H | H]
              | H : False |- _ => destruct H
              end.
  all: subst c; simpl in Hthrown; try discriminate Hthrown.
  all: injection Hthrown as <-; split; reflexivity.
Qed.

(** C3, as the code has it: [execute] has no handler.  When every call it
    makes returns, it returns one of the five variants; when it throws, it
    throws what its last call threw; a payment header that
    [parsePaymentHeader] rejects makes [execute] throw that same error, the
    decoding being its last call, instead of returning a variant; and so
    with every collaborator operation: whichever call throws, [execute]
    throws the same error, unchanged, and makes no further call. *)
Theorem throws_what_a_collaborator_throws (input : ProcessX402Input) (w : W) :
  let result := fst (run input w) in
  let tr := trace (snd (run input w)) in
  (Forall (fun c => call_thrown c = None) tr ->
   exists outcome, result = Returned outcome)
  /\ (forall e, result = Thrown e ->
        exists c, last tr = Some c /\ call_thrown c = Some e)
  /\ (forall header e,
        In (CallParsePaymentHeader header (Thrown e)) tr ->
        result = Thrown e
        /\ paymentHeader input = Some header
        /\ last tr = Some (CallParsePaymentHeader header (Thrown e)))
  /\ (forall c e,
        In c tr -> call_thrown c = Some e ->
        result = Thrown e /\ last tr = Some c).
Proof.
  intros result tr.
  assert (Hany : forall c e,
             In c tr -> call_thrown c = Some e ->
             result = Thrown e /\ last tr = Some c)
    by (intros c e; apply collaborator_throw_ends_the_run).
  revert Hany. unfold result, tr. clear result tr.
  run_cases.
  all: intros Hany.
  all: split; [|split; [|split; [|exact Hany]]]; clear Hany.
  all: try (intros _; eexists; reflexivity).
  all: try (intros HF;
            repeat match goal with
                   | H : Forall _ (_ :: _) |- _ => inversion H; clear H; subst
                   end; simpl in *; discriminate).
  all: try (intros e' [= <-]; eexists; split; reflexivity).
  all: try (intros e' He'; discriminate He').
  all: simpl; intros header' e' Hin; intuition (try discriminate).
  all: match goal with
       | H : CallParsePaymentHeader _ _ = CallParsePaymentHeader _ _ |- _ =>
         injection H as <- <-
       end; auto.
Qed.
End Exceptions.

Section Repeated.
Context {W : Type}.
Context {vendorRepository : IVendorRepository W}.
Context {productRepository : IProductRepository W}.
Context {paymentGateway : IPaymentGateway W}.

Lemma no_proof_or_no_match_no_mutating_calls (input : ProcessX402Input) (w : W) :
  no_proof_or_no_match input (trace (snd (run input w))) ->
  no_mutating_calls (trace (snd (run input w))).
Proof.
  unfold no_proof_or_no_match, no_mutating_calls. run_cases.
  all: intros [Hh | [Hh | (requirements & payload & Hin)]]; try discriminate.
  all: try (repeat constructor; fail).
  all: simpl in Hin; intuition (try discriminate).
  all: congruence.
Qed.

Lemma no_proof_or_no_match_classification (input : ProcessX402Input) (w : W)
  (outcome : ProcessX402Result) :
  no_proof_or_no_match input (trace (snd (run input w))) ->
  fst (run input w) = Returned outcome ->
  result_type outcome = T_not_found \/ result_type outcome = T_payment_required.
Proof.
  unfold no_proof_or_no_match. run_cases.
  all: intros [Hh | [Hh | (requirements & payload & Hin)]]; try discriminate.
  all: try (intros [= <-]; simpl; auto; fail).
  all: try (intros Ho; discriminate Ho).
  all: simpl in Hin; intuition (try discriminate); congruence.
Qed.

(** A run without mutating calls leaves the collaborators in a state reached
    through lookups and builds only. *)
Lemma run_after_reads (input : ProcessX402Input) (w : W) :
  no_mutating_calls (trace (snd (run input w))) ->
  after_reads w (world (snd (run input w))).
Proof.
  unfold no_mutating_calls. run_cases.
  all: intros Hno.
  all: repeat match goal with
              | H : _ = (_, ?x) |- _ =>
                apply (f_equal snd) in H; simpl in H; subst x
              end.
  all: try (repeat econstructor; fail).
  all: exfalso.
  all: repeat match goal with
              | H : Forall _ (_ :: _) |- _ => inversion H; clear H; subst
              end.
  all: simpl in *; intuition discriminate.
Qed.

(** Without a mutating call, the completion and the calls of a run are the
    same from every state that deterministic collaborators reach through
    lookups and builds. *)
Lemma run_deterministic (input : ProcessX402Input) (wa wb : W) :
  DeterministicLookups ->
  after_reads wa wb ->
  no_mutating_calls (trace (snd (run input wa))) ->
  fst (run input wb) = fst (run input wa)
  /\ trace (snd (run input wb)) = trace (snd (run input wa)).
Proof.
  intros Hdet Hb0.
  unfold no_mutating_calls, run, execute, bind, await, call, ret; simpl.
  pose proof (proj1 (Hdet wa wb Hb0) (vendorId input)) as E1.
  pose proof (after_findById wa (vendorId input) wa (after_none wa)) as Ha1.
  pose proof (after_findById wa (vendorId input) wb Hb0) as Hb1.
  destruct (findById (vendorId input) wa) as [r1 wa1].
  destruct (findById (vendorId input) wb) as [r1' wb1].
  simpl in E1, Ha1, Hb1; subst r1'.
  destruct r1 as [[vendor|]|e]; simpl; auto.
  pose proof (proj1 (proj2 (Hdet wa wa1 Ha1)) (vendorId input) (path input)) as E2.
  pose proof (proj1 (proj2 (Hdet wa wb1 Hb1)) (vendorId input) (path input)) as E2'.
  rewrite <- E2 in E2'. clear E2.
  pose proof (after_findByVendorIdAndPath wa (vendorId input) (path input) wa1 Ha1)
    as Ha2.
  pose proof (after_findByVendorIdAndPath wa (vendorId input) (path input) wb1 Hb1)
    as Hb2.
  destruct (findByVendorIdAndPath (vendorId input) (path input) wa1) as [r2 wa2].
  destruct (findByVendorIdAndPath (vendorId input) (path input) wb1) as [r2' wb2].
  simpl in E2', Ha2, Hb2; subst r2'.
  destruct r2 as [[product|]|e]; simpl; auto.
  pose proof (proj2 (proj2 (Hdet wa wa2 Ha2)) (resourceConfig_of vendor product))
    as E3.
  pose proof (proj2 (proj2 (Hdet wa wb2 Hb2)) (resourceConfig_of vendor product))
    as E3'.
  rewrite <- E3 in E3'. clear E3.
  destruct (buildPaymentRequirements (resourceConfig_of vendor product) wa2)
    as [r3 wa3].
  destruct (buildPaymentRequirements (resourceConfig_of vendor product) wb2)
    as [r3' wb3].
  simpl in E3'; subst r3'.
  destruct r3 as [requirements|e]; simpl; auto.
  destruct (paymentHeader input) as [[|c header]|]; simpl.
  - destruct (createPaymentRequiredResponse _ _); simpl; auto.
  - destruct (parsePaymentHeader _) as [payload|e]; simpl; auto.
    destruct (findMatchingRequirements _ _) as [[matching|]|e]; simpl; auto.
    + intros Hno. exfalso. revert Hno. completion_cases.
      all: intros Hno.
      all: repeat match goal with
                  | H : Forall _ (_ :: _) |- _ => inversion H; clear H; subst
                  end.
      all: simpl in *; intuition discriminate.
    + destruct (createPaymentRequiredResponse _ _); simpl; auto.
  - destruct (createPaymentRequiredResponse _ _); simpl; auto.
Qed.

(** C9: against deterministic lookups and build, a second invocation with
    the same input, made in the state the first one left, completes as the
    first did whenever the first took the no-proof or the no-match path; a
    returned result is [not_found] or [payment_required] both times, and
    neither invocation calls [verifyPayment] or [settlePayment]. *)
Theorem repeated_request_same_classification (input : ProcessX402Input) (w : W) :
  DeterministicLookups ->
  let first := run input w in
  let second := run input (world (snd first)) in
  no_proof_or_no_match input (trace (snd first)) ->
  fst second = fst first
  /\ (forall outcome,
        fst first = Returned outcome ->
        exists outcome',
          fst second = Returned outcome'
          /\ result_type outcome' = result_type outcome
          /\ (result_type outcome = T_not_found
              \/ result_type outcome = T_payment_required))
  /\ no_mutating_calls (trace (snd first))
  /\ no_mutating_calls (trace (snd second)).
Proof.
  intros Hdet first second Hpath.
  pose proof (no_proof_or_no_match_no_mutating_calls input w Hpath) as Hno.
  pose proof (run_after_reads input w Hno) as Hreads.
  destruct (run_deterministic input w (world (snd first)) Hdet Hreads Hno)
    as [Hresult Htrace].
  fold first in Hresult, Htrace, Hno. fold second in Hresult, Htrace.
  split; [exact Hresult|]. split; [|split].
  - intros outcome Hfirst. exists outcome. rewrite Hresult.
    split; [exact Hfirst|]. split; [reflexivity|].
    exact (no_proof_or_no_match_classification input w outcome Hpath Hfirst).
  - exact Hno.
  - rewrite Htrace. exact Hno.
Qed.
End Repeated.

Section EmptyHeader.
Context {W : Type}.
Context {vendorRepository : IVendorRepository W}.
Context {productRepository : IProductRepository W}.
Context {paymentGateway : IPaymentGateway W}.

(** C10: a request whose payment header is the empty string runs exactly as
    the same request without a header; no call decodes, matches, verifies or
    settles a proof; and when vendor and product resolve and the gateway
    builds the requirements and the challenge, the result is
    [payment_required]. *)
Theorem empty_header_is_no_proof (input : ProcessX402Input) (w : W) :
  paymentHeader input = Some EmptyString ->
  run input w = run (without_header input) w
  /\ Forall (fun c => handles_proof c = false) (trace (snd (run input w)))
  /\ (forall vendor product requirements paymentRequired w1 w2 w3,
        findById (vendorId input) w = (Returned (Some vendor), w1) ->
        findByVendorIdAndPath (vendorId input) (path input) w1
        = (Returned (Some product), w2) ->
        buildPaymentRequirements (resourceConfig_of vendor product) w2
        = (Returned requirements, w3) ->
        createPaymentRequiredResponse requirements
          (resourceInfo_of input product)
        = Returned paymentRequired ->
        run input w
        = (Returned (payment_required paymentRequired),
           {| world := w3;
              trace :=
                [CallFindById (vendorId input) (Returned (Some vendor));
                 CallFindByVendorIdAndPath (vendorId input) (path input)
                   (Returned (Some product));
                 CallBuildPaymentRequirements
                   (resourceConfig_of vendor product) (Returned requirements);
                 CallCreatePaymentRequiredResponse requirements
                   (resourceInfo_of input product)
                   (Returned paymentRequired)] |})).
Proof.
  intros Hempty. split; [|split].
  - unfold run, execute, without_header, resourceInfo_of; simpl.
    rewrite Hempty. reflexivity.
  - revert Hempty. run_cases.
    all: intros Hempty; try discriminate.
    all: repeat constructor.
  - intros vendor product requirements paymentRequired w1 w2 w3
           Hvendor Hproduct Hbuild Hcreate.
    unfold run, execute, bind, await, call, ret; simpl.
    rewrite Hvendor; simpl. rewrite Hproduct; simpl. rewrite Hbuild; simpl.
    rewrite Hempty. rewrite Hcreate. reflexivity.
Qed.
End EmptyHeader.

(** ** The test doubles meet the contracts *)

Lemma mock_build_keeps_payee (decode : string -> Res PaymentPayload.t) :
  @BuildKeepsPayee TestWorld (mockPaymentGateway decode).
Proof.
  intros config w requirements w' Hbuilt. simpl in Hbuilt.
  injection Hbuilt as <- <-. eexists _, _. split; reflexivity.
Qed.

Lemma mock_challenge_accepts_requirements (decode : string -> Res PaymentPayload.t) :
  @ChallengeAcceptsRequirements TestWorld (mockPaymentGateway decode).
Proof.
  intros requirements resourceInfo paymentRequired Hcreated. simpl in Hcreated.
  injection Hcreated as <-. reflexivity.
Qed.

(** Lookups and builds leave the two repositories as they were. *)
Lemma after_reads_catalog (decode : string -> Res PaymentPayload.t)
  (w w' : TestWorld) :
  @after_reads TestWorld inMemoryVendorRepository inMemoryProductRepository
     (mockPaymentGateway decode) w w' ->
  vendors w' = vendors w /\ products w' = products w.
Proof.
  induction 1 as [| id w' _ IH | vendorId path w' _ IH | config w' _ IH];
    simpl; auto.
Qed.

Lemma test_doubles_deterministic (decode : string -> Res PaymentPayload.t) :
  @DeterministicLookups TestWorld inMemoryVendorRepository
     inMemoryProductRepository (mockPaymentGateway decode).
Proof.
  intros w w' Hreads.
  destruct (after_reads_catalog decode w w' Hreads) as [Hvendors Hproducts].
  repeat split; intros; simpl; congruence.
Qed.

(** ** The test cases, through the theorems *)

Module Cases.
Import Fixture.

#[local] Existing Instance inMemoryVendorRepository.
#[local] Existing Instance inMemoryProductRepository.
#[local] Existing Instance mockGateway.

(** The success test: one settlement, after the verification. *)
Lemma settle_at_most_once_after_valid_verify_witness :
  (settle_calls
     (trace (snd (test_run decodeHeader
                    (request "weather" (Some validHeader)) world0))) <= 1)%nat.
Proof.
  exact (proj1 (settle_at_most_once_after_valid_verify
                  (request "weather" (Some validHeader)) world0)).
Defined.

(** A proof built against another network: the challenge offers the current
    requirement, not the claimed one. *)
Lemma no_match_payment_required_witness :
  fst (test_run decodeHeader (request "weather" (Some staleHeader)) world0)
  = Returned (payment_required challenge)
  /\ ~ In (requirementOn "eip155:1") current.
Proof.
  pose proof (no_match_payment_required
                (request "weather" (Some staleHeader))
                world0 world0 world0 (built world0)
                testVendor testProduct current
                eq_refl eq_refl eq_refl
                staleHeader (payloadOn "eip155:1")
                eq_refl ltac:(discriminate) eq_refl
                challenge eq_refl
                ltac:(intros r [<- | []] [_ Hnetwork]; discriminate Hnetwork)
                eq_refl) as [Hrun Hnot].
  split; [exact (f_equal fst Hrun) | exact Hnot].
Defined.

(** The two not-found tests. *)
Lemma not_found_vendor_before_product_witness :
  fst (test_run decodeHeader unknownVendorRequest world0)
  = Returned (not_found "Vendor not found")
  /\ fst (test_run decodeHeader (request "non-existent" None) world0)
     = Returned (not_found "Product not found").
Proof.
  split.
  - exact (f_equal fst
             (proj1 (not_found_vendor_before_product unknownVendorRequest world0)
                    world0 eq_refl)).
  - exact (f_equal fst
             (proj1 (proj2 (not_found_vendor_before_product
                              (request "non-existent" None) world0))
                    testVendor world0 world0 eq_refl eq_refl)).
Defined.

(** The no-header test: the first requirement pays the test vendor. *)
Lemma no_proof_payment_required_witness :
  fst (test_run decodeHeader (request "weather" None) world0)
  = Returned (payment_required challenge)
  /\ exists first rest,
       PaymentRequired.accepts challenge = first :: rest
       /\ PaymentRequirements.payTo first = Vendor.evmAddress testVendor.
Proof.
  pose proof (no_proof_payment_required
                (request "weather" None)
                world0 world0 world0 (built world0)
                testVendor testProduct current
                eq_refl eq_refl eq_refl
                challenge eq_refl eq_refl
                (mock_build_keeps_payee decodeHeader)
                (mock_challenge_accepts_requirements decodeHeader))
    as [Hrun Hpayee].
  split; [exact (f_equal fst Hrun) | exact Hpayee].
Defined.

(** The failed-verification test: [verification_failed] with the reason of
    the mock, and no settlement. *)
Lemma invalid_proof_verification_failed_witness :
  let result :=
    test_run decodeHeader (request "weather" (Some validHeader))
      (withVerifyResult invalidSignature world0) in
  fst result = Returned (verification_failed "Invalid signature")
  /\ settle_calls (trace (snd result)) = 0%nat.
Proof.
  pose proof (invalid_proof_verification_failed
                (request "weather" (Some validHeader))
                (withVerifyResult invalidSignature world0)
                (withVerifyResult invalidSignature world0)
                (withVerifyResult invalidSignature world0)
                (built (withVerifyResult invalidSignature world0))
                testVendor testProduct current
                eq_refl eq_refl eq_refl
                validHeader (payloadOn "eip155:84532")
                eq_refl ltac:(discriminate) eq_refl
                (requirementOn "eip155:84532") invalidSignature
                (built (withVerifyResult invalidSignature world0))
                eq_refl eq_refl eq_refl) as Hrun.
  split.
  - exact (f_equal fst Hrun).
  - exact (f_equal (fun r => settle_calls (trace (snd r))) Hrun).
Defined.

(** The failed-settlement test. *)
Lemma failed_settlement_releases_no_product_witness :
  fst (test_run decodeHeader (request "weather" (Some validHeader))
         (withSettleResult insufficientFunds world0))
  = Returned (settlement_failed "Insufficient funds")
  /\ result_product (settlement_failed "Insufficient funds") = None.
Proof.
  pose proof (failed_settlement_releases_no_product
                (request "weather" (Some validHeader))
                (withSettleResult insufficientFunds world0)
                (withSettleResult insufficientFunds world0)
                (withSettleResult insufficientFunds world0)
                (built (withSettleResult insufficientFunds world0))
                testVendor testProduct current
                eq_refl eq_refl eq_refl
                validHeader (payloadOn "eip155:84532")
                eq_refl ltac:(discriminate) eq_refl
                (requirementOn "eip155:84532")
                (MockPaymentGateway.verifyResult MockPaymentGateway.new)
                (built (withSettleResult insufficientFunds world0))
                eq_refl eq_refl
                insufficientFunds
                (built (withSettleResult insufficientFunds world0))
                eq_refl eq_refl eq_refl) as (Hrun & Hnone & _).
  split; [exact (f_equal fst Hrun) | exact Hnone].
Defined.

(** The success test: the settlement of the mock and the test product. *)
Lemma settled_proof_success_witness :
  exists outcome,
    fst (test_run decodeHeader (request "weather" (Some validHeader)) world0)
    = Returned outcome
    /\ outcome
       = success (MockPaymentGateway.settleResult MockPaymentGateway.new)
                 testProduct.
Proof.
  pose proof (settled_proof_success
              (request "weather" (Some validHeader))
              world0 world0 world0 (built world0)
              testVendor testProduct current
              eq_refl eq_refl eq_refl
              validHeader (payloadOn "eip155:84532")
              eq_refl ltac:(discriminate) eq_refl
              (requirementOn "eip155:84532")
              (MockPaymentGateway.verifyResult MockPaymentGateway.new)
              (built world0)
              eq_refl eq_refl
              (MockPaymentGateway.settleResult MockPaymentGateway.new)
              (built world0)
              eq_refl eq_refl eq_refl) as (outcome & Hrun & Hout & _).
  exists outcome. split; [exact (f_equal fst Hrun) | exact Hout].
Defined.

(** A malformed proof: [execute] throws the decoder's error. *)
Lemma throws_what_a_collaborator_throws_witness :
  fst (test_run decodeHeader (request "weather" (Some malformedHeader)) world0)
  = Thrown syntaxError.
Proof.
  apply (proj1 (proj2 (proj2 (throws_what_a_collaborator_throws
                                (request "weather" (Some malformedHeader))
                                world0)))
               malformedHeader syntaxError).
  vm_compute. tauto.
Defined.

(** The claim fails at the malformed proof: no variant is returned. *)
Lemma malformed_proof_is_not_an_outcome :
  fst (test_run decodeHeader (request "weather" (Some malformedHeader)) world0)
  = Thrown syntaxError
  /\ ~ exists outcome,
        fst (test_run decodeHeader
               (request "weather" (Some malformedHeader)) world0)
        = Returned outcome.
Proof.
  split; [reflexivity|]. intros [outcome Houtcome]. discriminate Houtcome.
Qed.

(** The no-header request, twice. *)
Lemma repeated_request_same_classification_witness :
  let first := test_run decodeHeader (request "weather" None) world0 in
  let second :=
    test_run decodeHeader (request "weather" None) (world (snd first)) in
  fst second = fst first
  /\ fst first = Returned (payment_required challenge).
Proof.
  split; [|reflexivity].
  apply (repeated_request_same_classification
           (request "weather" None) world0
           (test_doubles_deterministic decodeHeader)).
  left. reflexivity.
Defined.

(** The empty header. *)
Lemma empty_header_is_no_proof_witness :
  test_run decodeHeader (request "weather" (Some EmptyString)) world0
  = test_run decodeHeader (request "weather" None) world0
  /\ fst (test_run decodeHeader (request "weather" (Some EmptyString)) world0)
     = Returned (payment_required challenge).
Proof.
  pose proof (empty_header_is_no_proof
                (request "weather" (Some EmptyString)) world0 eq_refl)
    as (Hsame & _ & Hresolved).
  split; [exact Hsame|].
  exact (f_equal fst
           (Hresolved testVendor testProduct current challenge
                      world0 world0 (built world0)
                      eq_refl eq_refl eq_refl eq_refl)).
Defined.

(** The default reasons, and a reason that is the empty string. *)
Example verification_failed_without_reason :
  fst (test_run decodeHeader (request "weather" (Some validHeader))
         (withVerifyResult invalidWithoutReason world0))
  = Returned (verification_failed "Unknown verification error").
Proof. reflexivity. Qed.

Example settlement_failed_without_reason :
  fst (test_run decodeHeader (request "weather" (Some validHeader))
         (withSettleResult failedWithoutReason world0))
  = Returned (settlement_failed "Unknown settlement error").
Proof. reflexivity. Qed.

Example verification_failed_with_empty_reason :
  fst (test_run decodeHeader (request "weather" (Some validHeader))
         (withVerifyResult
            {| VerifyResponse.isValid := false;
               VerifyResponse.invalidReason := Some EmptyString;
               VerifyResponse.payer := None |} world0))
  = Returned (verification_failed EmptyString).
Proof. reflexivity. Qed.

(** The calls of the success test, in order. *)
Example success_calls :
  trace (snd (test_run decodeHeader
                (request "weather" (Some validHeader)) world0))
  = verified_calls (request "weather" (Some validHeader)) testVendor
      testProduct current validHeader (payloadOn "eip155:84532")
      (requirementOn "eip155:84532")
      (MockPaymentGateway.verifyResult MockPaymentGateway.new)
    ++ [CallSettlePayment (payloadOn "eip155:84532")
          (requirementOn "eip155:84532")
          (Returned (MockPaymentGateway.settleResult MockPaymentGateway.new))].
Proof. reflexivity. Qed.
End Cases.

(** ** The in-memory repositories *)

Lemma product_findById_save (product : Product.t)
  (products : list (string * Product.t)) (id : string) :
  InMemoryProductRepository.findById id
    (InMemoryProductRepository.save product products)
  = if String.eqb (Product.id product) id then Some product
    else InMemoryProductRepository.findById id products.
Proof.
  induction products as [|[k q] rest IH]; simpl.
  - reflexivity.
  - destruct (String.eqb k (Product.id product)) eqn:Hk; simpl.
    + apply String.eqb_eq in Hk. subst k.
      destruct (String.eqb (Product.id product) id); reflexivity.
    + destruct (String.eqb k id) eqn:Hid; [|exact IH].
      apply String.eqb_eq in Hid. subst k.
      rewrite String.eqb_sym, Hk. reflexivity.
Qed.

Lemma product_save_keys (product : Product.t)
  (products : list (string * Product.t)) (k : string) :
  k ∈ List.map fst (InMemoryProductRepository.save product products) <->
  k ∈ List.map fst products \/ k = Product.id product.
Proof.
  induction products as [|[k0 q] rest IH]; simpl.
  - rewrite list_elem_of_singleton, elem_of_nil. intuition.
  - destruct (String.eqb k0 (Product.id product)) eqn:Hk; simpl.
    + apply String.eqb_eq in Hk. subst k0. rewrite !elem_of_cons. intuition.
    + rewrite !elem_of_cons, IH. intuition.
Qed.

Lemma product_save_well_keyed (product : Product.t)
  (products : list (string * Product.t)) :
  InMemoryProductRepository.well_keyed products ->
  InMemoryProductRepository.well_keyed
    (InMemoryProductRepository.save product products).
Proof.
  unfold InMemoryProductRepository.well_keyed.
  induction products as [|[k q] rest IH]; simpl; intros [Hnodup Hkeys].
  - split; [apply NoDup_singleton | repeat constructor].
  - apply NoDup_cons in Hnodup as [Hnotin Hrest].
    inversion Hkeys as [|? ? Hk Hkeys']; subst.
    destruct (String.eqb k (Product.id product)) eqn:Heq; simpl.
    + apply String.eqb_eq in Heq.
      split; [apply NoDup_cons; split; assumption
             | constructor; [exact Heq | assumption]].
    + apply String.eqb_neq in Heq.
      destruct (IH (conj Hrest Hkeys')) as [IHn IHk].
      split; [|constructor; assumption].
      apply NoDup_cons. split; [|exact IHn].
      rewrite product_save_keys.
      intros [Hin | ->]; [exact (Hnotin Hin) | exact (Heq eq_refl)].
Qed.

Lemma find_append {A} (f : A -> bool) (l1 l2 : list A) :
  List.find f (l1 ++ l2)
  = match List.find f l1 with
    | Some x => Some x
    | None => List.find f l2
    end.
Proof.
  induction l1 as [|x l1 IH]; simpl; [reflexivity|].
  destruct (f x); [reflexivity | exact IH].
Qed.

(** X1: after any sequence of saves into any repository, [findById] answers
    with the product saved last under that id, and with what the repository
    held before when none was saved under it. *)
Theorem product_findById_last_saved (l : list Product.t)
  (products : list (string * Product.t)) (id : string) :
  InMemoryProductRepository.findById id
    (List.fold_left
       (fun products product => InMemoryProductRepository.save product products)
       l products)
  = match List.find (fun p => String.eqb (Product.id p) id) (List.rev l) with
    | Some product => Some product
    | None => InMemoryProductRepository.findById id products
    end.
Proof.
  revert products. induction l as [|p l IH]; intros products; simpl.
  - reflexivity.
  - rewrite IH. rewrite find_append.
    destruct (List.find _ (List.rev l)); [reflexivity|]. simpl.
    rewrite product_findById_save.
    destruct (String.eqb (Product.id p) id); reflexivity.
Qed.

(** A repository filled by saves alone holds no id twice and every product
    under its own id. *)
Lemma saved_well_keyed (l : list Product.t) :
  InMemoryProductRepository.well_keyed (InMemoryProductRepository.saved l).
Proof.
  assert (Hall : forall products,
             InMemoryProductRepository.well_keyed products ->
             InMemoryProductRepository.well_keyed
               (List.fold_left
                  (fun products product =>
                     InMemoryProductRepository.save product products)
                  l products)).
  { induction l as [|p l IH]; intros products Hwf; simpl; [exact Hwf|].
    apply IH. apply product_save_well_keyed. exact Hwf. }
  apply Hall. split; [apply NoDup_nil_2 | constructor].
Qed.

(** X2: [save] replaces in place or appends.  When the repository holds a
    product under the id, the saved product takes that entry's place and
    every other entry stays where it was; when it holds none, the saved
    product becomes the last entry.  Either way a repository that holds no
    id twice and every product under its own id still does, as does every
    repository filled by saves alone. *)
Theorem product_save_replaces_or_appends (product : Product.t)
  (products : list (string * Product.t)) :
  InMemoryProductRepository.well_keyed products ->
  InMemoryProductRepository.well_keyed
    (InMemoryProductRepository.save product products)
  /\ match InMemoryProductRepository.findById (Product.id product) products with
     | Some stored =>
       exists before after,
         products = before ++ (Product.id product, stored) :: after
         /\ InMemoryProductRepository.save product products
            = before ++ (Product.id product, product) :: after
         /\ Forall (fun entry => fst entry <> Product.id product)
                   (before ++ after)
     | None =>
       InMemoryProductRepository.save product products
       = products ++ [(Product.id product, product)]
     end
  /\ forall l,
       InMemoryProductRepository.well_keyed
         (InMemoryProductRepository.save product
            (InMemoryProductRepository.saved l)).
Proof.
  intros Hwf. split; [exact (product_save_well_keyed product products Hwf)|].
  split; [|intros l; apply product_save_well_keyed, saved_well_keyed].
  destruct Hwf as [Hnodup _]. revert Hnodup.
  induction products as [|[k q] rest IH]; simpl; intros Hnodup; [reflexivity|].
  apply NoDup_cons in Hnodup as [Hnotin Hrest].
  destruct (String.eqb k (Product.id product)) eqn:Hk.
  - apply String.eqb_eq in Hk. subst k.
    exists [], rest. repeat split. simpl.
    apply Forall_forall. intros [k' q'] Hin Heq. simpl in Heq. subst k'.
    apply Hnotin. apply list_elem_of_In. apply list_elem_of_In in Hin.
    apply (in_map fst) in Hin. exact Hin.
  - apply String.eqb_neq in Hk. specialize (IH Hrest).
    destruct (InMemoryProductRepository.findById (Product.id product) rest)
      as [stored|].
    + destruct IH as (before & after & -> & -> & Hothers).
      exists ((k, q) :: before), after. repeat split.
      simpl. constructor; [exact Hk | exact Hothers].
    + rewrite IH. reflexivity.
Qed.

(** X3: [findByVendorIdAndPath] answers with the first stored product, in
    insertion order, whose vendor id and path are the ones asked for, and
    with nothing exactly when no stored product has both. *)
Theorem findByVendorIdAndPath_first_stored (vendorId path : string)
  (products : list (string * Product.t)) :
  match InMemoryProductRepository.findByVendorIdAndPath vendorId path products with
  | Some product =>
    exists before k after,
      products = before ++ (k, product) :: after
      /\ Product.vendorId product = vendorId
      /\ Product.path product = path
      /\ Forall (fun entry =>
                   ~ (Product.vendorId (snd entry) = vendorId
                      /\ Product.path (snd entry) = path)) before
  | None =>
    Forall (fun entry =>
              ~ (Product.vendorId (snd entry) = vendorId
                 /\ Product.path (snd entry) = path)) products
  end.
Proof.
  induction products as [|[k q] rest IH]; simpl; [constructor|].
  destruct (String.eqb (Product.vendorId q) vendorId
            && String.eqb (Product.path q) path) eqn:Hq.
  - apply andb_true_iff in Hq as [Hv Hp].
    apply String.eqb_eq in Hv, Hp.
    exists [], k, rest. repeat split; [exact Hv | exact Hp | constructor].
  - assert (Hno : ~ (Product.vendorId q = vendorId /\ Product.path q = path)).
    { intros [Hv Hp]. apply String.eqb_eq in Hv, Hp.
      rewrite Hv, Hp in Hq. discriminate Hq. }
    destruct (InMemoryProductRepository.findByVendorIdAndPath vendorId path rest)
      as [product|].
    + destruct IH as (before & k' & after & -> & Hv & Hp & Hbefore).
      exists ((k, q) :: before), k', after.
      repeat split; [exact Hv | exact Hp | constructor; assumption].
    + constructor; assumption.
Qed.

(** X4: saving a product under an id the repository does not hold changes no
    lookup that already found a product; the new product is found for its own
    vendor id and path, and only when no stored product has both. *)
Theorem save_new_product_lookup (product : Product.t)
  (products : list (string * Product.t)) (vendorId path : string) :
  InMemoryProductRepository.findById (Product.id product) products = None ->
  InMemoryProductRepository.findByVendorIdAndPath vendorId path
    (InMemoryProductRepository.save product products)
  = match InMemoryProductRepository.findByVendorIdAndPath vendorId path products with
    | Some stored => Some stored
    | None =>
      if String.eqb (Product.vendorId product) vendorId
         && String.eqb (Product.path product) path
      then Some product
      else None
    end.
Proof.
  induction products as [|[k q] rest IH]; simpl; intros Hnew.
  - reflexivity.
  - destruct (String.eqb k (Product.id product)) eqn:Hk; [discriminate Hnew|].
    simpl.
    destruct (String.eqb (Product.vendorId q) vendorId
              && String.eqb (Product.path q) path); [reflexivity|].
    exact (IH Hnew).
Qed.

(** X5: looking a product up by vendor id and path gives the first product
    with that path in the list [findByVendorId] gives for the vendor. *)
Theorem findByVendorIdAndPath_among_vendor_products (vendorId path : string)
  (products : list (string * Product.t)) :
  InMemoryProductRepository.findByVendorIdAndPath vendorId path products
  = List.find (fun p => String.eqb (Product.path p) path)
      (InMemoryProductRepository.findByVendorId vendorId products).
Proof.
  unfold InMemoryProductRepository.findByVendorId.
  induction products as [|[k q] rest IH]; simpl; [reflexivity|].
  destruct (String.eqb (Product.vendorId q) vendorId); simpl.
  - destruct (String.eqb (Product.path q) path); [reflexivity | exact IH].
  - exact IH.
Qed.

(** X6: after any sequence of saves into any vendor repository, [findById]
    answers with the vendor saved last under that id, and with what the
    repository held before when none was saved under it. *)
Theorem vendor_findById_last_saved (l : list Vendor.t)
  (vendors : gmap string Vendor.t) (id : string) :
  InMemoryVendorRepository.findById id
    (List.fold_left
       (fun vendors vendor => InMemoryVendorRepository.save vendor vendors)
       l vendors)
  = match List.find (fun v => String.eqb (Vendor.id v) id) (List.rev l) with
    | Some vendor => Some vendor
    | None => InMemoryVendorRepository.findById id vendors
    end.
Proof.
  revert vendors. induction l as [|v l IH]; intros vendors; simpl.
  - reflexivity.
  - rewrite IH. rewrite find_append.
    destruct (List.find _ (List.rev l)); [reflexivity|]. simpl.
    unfold InMemoryVendorRepository.findById, InMemoryVendorRepository.save.
    destruct (String.eqb (Vendor.id v) id) eqn:Hid.
    + apply String.eqb_eq in Hid. subst id. apply lookup_insert_eq.
    + apply String.eqb_neq in Hid. apply lookup_insert_ne. exact Hid.
Qed.

Module RepositoryCases.
Import Fixture.

(** The second product on the occupied path: the first stays the one
    found. *)
Lemma save_new_product_lookup_witness :
  InMemoryProductRepository.findByVendorIdAndPath "vendor-1" "weather"
    (InMemoryProductRepository.save secondProduct (products world0))
  = Some testProduct.
Proof.
  exact (save_new_product_lookup secondProduct (products world0)
           "vendor-1" "weather" eq_refl).
Defined.

(** The test product saved again with another status: it stays the one
    entry. *)
Lemma product_save_replaces_or_appends_witness :
  InMemoryProductRepository.save (withStatus INACTIVE testProduct)
    (products world0)
  = [("product-1", withStatus INACTIVE testProduct)]
  /\ InMemoryProductRepository.save secondProduct (products world0)
     = products world0 ++ [("product-2", secondProduct)].
Proof.
  split.
  - destruct (proj1 (proj2 (product_save_replaces_or_appends
                              (withStatus INACTIVE testProduct)
                              (products world0)
                              (saved_well_keyed [testProduct]))))
      as (before & after & _ & Hsaved & _).
    reflexivity.
  - exact (proj1 (proj2 (product_save_replaces_or_appends
                           secondProduct (products world0)
                           (saved_well_keyed [testProduct])))).
Defined.
End RepositoryCases.

(** ** The mock gateway *)

(** X7: the mock's [findMatchingRequirements] compares scheme and network
    only: it answers with the first entry equal to the proof's claim on
    both, whatever the entry's asset, amount, payee or timeout, and with
    nothing exactly when no entry is equal on both. *)
Theorem findMatchingRequirements_scheme_and_network
  (requirements : list PaymentRequirements.t) (payload : PaymentPayload.t) :
  let claimed := PaymentPayload.accepted payload in
  let differs r :=
    ~ (PaymentRequirements.scheme r = PaymentRequirements.scheme claimed
       /\ PaymentRequirements.network r = PaymentRequirements.network claimed) in
  match MockPaymentGateway.findMatchingRequirements requirements payload with
  | Some r =>
    exists before after,
      requirements = before ++ r :: after
      /\ PaymentRequirements.scheme r = PaymentRequirements.scheme claimed
      /\ PaymentRequirements.network r = PaymentRequirements.network claimed
      /\ Forall differs before
  | None => Forall differs requirements
  end.
Proof.
  intros claimed differs.
  unfold MockPaymentGateway.findMatchingRequirements.
  induction requirements as [|r0 rest IH]; simpl; [constructor|].
  destruct (MockPaymentGateway.matches payload r0) eqn:Hm.
  - apply matches_iff in Hm as [Hs Hn].
    exists [], rest. repeat split; [exact Hs | exact Hn | constructor].
  - assert (Hno : differs r0).
    { intros Heq. apply matches_iff in Heq. rewrite Heq in Hm. discriminate Hm. }
    destruct (List.find (MockPaymentGateway.matches payload) rest) as [r|].
    + destruct IH as (before & after & -> & Hs & Hn & Hbefore).
      exists (r0 :: before), after.
      repeat split; [exact Hs | exact Hn | constructor; assumption].
    + constructor; assumption.
Qed.

Lemma mock_match_selects_from_list (decode : string -> Res PaymentPayload.t) :
  @MatchSelectsFromList TestWorld (mockPaymentGateway decode).
Proof.
  intros requirements payload matching Hfound. simpl in Hfound.
  injection Hfound as Hfound.
  apply find_some in Hfound. exact (proj1 Hfound).
Qed.

(** ** More on [execute] *)

Section Requirements.
Context {W : Type}.
Context {vendorRepository : IVendorRepository W}.
Context {productRepository : IProductRepository W}.
Context {paymentGateway : IPaymentGateway W}.

(** X8: with a gateway whose match selects from the list it is given, every
    [verifyPayment] and [settlePayment] call of an invocation is made on a
    requirement that [buildPaymentRequirements] returned in that same
    invocation, never on one taken from the proof. *)
Theorem verify_and_settle_use_built_requirement
  (input : ProcessX402Input) (w : W) :
  MatchSelectsFromList ->
  forall c payload matching,
    In c (trace (snd (run input w))) ->
    (exists r, c = CallVerifyPayment payload matching r)
    \/ (exists r, c = CallSettlePayment payload matching r) ->
    exists config requirements,
      In (CallBuildPaymentRequirements config (Returned requirements))
         (trace (snd (run input w)))
      /\ In matching requirements.
Proof.
  intros Hselect c payload matching. run_cases.
  all: intros Hin [[r ->] | [r ->]].
  all: simpl in Hin; intuition (try discriminate).
  all: match goal with
       | H : _ = _ :> Call |- _ => injection H as <- <- <-
       end.
  all: match goal with
       | H : findMatchingRequirements _ _ = Returned (Some _) |- _ =>
         apply Hselect in H
       end.
  all: eexists _, _; split; [|eassumption]; simpl; auto 10.
Qed.
End Requirements.

Section Outcomes.
Context {W : Type}.
Context {vendorRepository : IVendorRepository W}.
Context {productRepository : IProductRepository W}.
Context {paymentGateway : IPaymentGateway W}.

(** X9: no operation of a collaborator is called twice in one invocation:
    there is no retry, and the challenge is created at most once. *)
Theorem each_operation_called_at_most_once
  (input : ProcessX402Input) (w : W) (o : Operation) :
  (calls_of o (trace (snd (run input w))) <= 1)%nat.
Proof.
  run_cases.
  all: destruct o; cbv; lia.
Qed.

(** X10: the requirements are built exactly when the product lookup found a
    product, before the payment header is looked at: with or without a
    proof, and also when the proof is then rejected. *)
Theorem requirements_built_iff_product_found
  (input : ProcessX402Input) (w : W) :
  let tr := trace (snd (run input w)) in
  calls_of OpBuildPaymentRequirements tr = 1%nat <->
  exists product,
    In (CallFindByVendorIdAndPath (vendorId input) (path input)
          (Returned (Some product))) tr.
Proof.
  run_cases.
  all: split; [intros Hcount | intros [found Hin]].
  all: try (cbv in Hcount; discriminate Hcount).
  all: try reflexivity.
  all: try (eexists; simpl; eauto; fail).
  all: simpl in Hin; intuition (try discriminate).
Qed.

(** X11: a [success] result is returned only after a settlement that
    reported success: the calls are exactly the two lookups, the build, the
    decoding, the match, a verification that reported the proof valid and
    the settlement, and the result carries that settlement's response and
    the product the lookup found. *)
Theorem success_only_after_settlement (input : ProcessX402Input) (w : W)
  (settled : SettleResponse.t) (released : Product.t) :
  fst (run input w) = Returned (success settled released) ->
  exists vendor requirements header payload matching verified,
    paymentHeader input = Some header
    /\ VerifyResponse.isValid verified = true
    /\ SettleResponse.success settled = true
    /\ trace (snd (run input w))
       = verified_calls input vendor released requirements header payload
           matching verified
         ++ [CallSettlePayment payload matching (Returned settled)].
Proof.
  run_cases.
  all: intros Hresult; try discriminate Hresult.
  injection Hresult as <- <-.
  repeat match goal with
         | H : negb _ = false |- _ => apply negb_false_iff in H
         end.
  do 6 eexists. repeat split; eauto.
Qed.

(** X12: a [verification_failed] result is returned only when the last call
    is a verification that reported the proof invalid, with its reason or the
    default one, and then nothing was settled; a [settlement_failed] result
    only when the last call is a settlement that reported failure, made after
    a verification that reported the proof valid. *)
Theorem failures_come_from_the_port (input : ProcessX402Input) (w : W)
  (reason : string) :
  let result := fst (run input w) in
  let tr := trace (snd (run input w)) in
  (result = Returned (verification_failed reason) ->
   exists payload matching verified,
     last tr = Some (CallVerifyPayment payload matching (Returned verified))
     /\ VerifyResponse.isValid verified = false
     /\ reason = match VerifyResponse.invalidReason verified with
                 | Some given => given
                 | None => "Unknown verification error"
                 end
     /\ settle_calls tr = 0%nat)
  /\ (result = Returned (settlement_failed reason) ->
      exists payload matching verified settled,
        last tr = Some (CallSettlePayment payload matching (Returned settled))
        /\ SettleResponse.success settled = false
        /\ reason = match SettleResponse.errorReason settled with
                    | Some given => given
                    | None => "Unknown settlement error"
                    end
        /\ In (CallVerifyPayment payload matching (Returned verified)) tr
        /\ VerifyResponse.isValid verified = true).
Proof.
  run_cases.
  all: split; intros Hresult; try discriminate Hresult.
  all: injection Hresult as <-.
  all: repeat match goal with
              | H : negb _ = false |- _ => apply negb_false_iff in H
              | H : negb _ = true |- _ => apply negb_true_iff in H
              end.
  - do 3 eexists. repeat split; eauto.
  - do 4 eexists. repeat split; eauto. simpl; auto 10.
Qed.

(** X13: a request answered with a challenge or with [not_found] has moved
    no money: no verification and no settlement was called.  A [not_found]
    result carries one of the two reasons and comes after catalog lookups
    only, the gateway not being called at all; a [payment_required] result
    carries what the last call, [createPaymentRequiredResponse], returned. *)
Theorem challenge_and_not_found_call_no_payment
  (input : ProcessX402Input) (w : W) :
  let result := fst (run input w) in
  let tr := trace (snd (run input w)) in
  (forall paymentRequired,
     result = Returned (payment_required paymentRequired) ->
     no_mutating_calls tr
     /\ exists requirements resourceInfo,
          last tr = Some (CallCreatePaymentRequiredResponse requirements
                            resourceInfo (Returned paymentRequired)))
  /\ (forall reason,
        result = Returned (not_found reason) ->
        (reason = "Vendor not found" \/ reason = "Product not found")
        /\ Forall (fun c => operation c = OpFindById
                            \/ operation c = OpFindByVendorIdAndPath) tr).
Proof.
  run_cases.
  all: split; intros ? Hresult; try discriminate Hresult.
  all: injection Hresult as <-.
  all: split; eauto.
  all: repeat constructor; simpl; auto.
Qed.
End Outcomes.

(** ** [execute] on the test doubles *)

Lemma findByVendorIdAndPath_withStatus (status : ProductStatus)
  (vendorId path : string) (products : list (string * Product.t)) :
  InMemoryProductRepository.findByVendorIdAndPath vendorId path
    (List.map (fun entry => (fst entry, withStatus status (snd entry))) products)
  = option_map (withStatus status)
      (InMemoryProductRepository.findByVendorIdAndPath vendorId path products).
Proof.
  induction products as [|[k q] rest IH]; simpl; [reflexivity|].
  destruct (String.eqb (Product.vendorId q) vendorId
            && String.eqb (Product.path q) path); [reflexivity | exact IH].
Qed.

Lemma findByVendorIdAndPath_saved_on_free_path (product : Product.t)
  (products : list (string * Product.t)) :
  InMemoryProductRepository.findByVendorIdAndPath
    (Product.vendorId product) (Product.path product) products = None ->
  InMemoryProductRepository.findByVendorIdAndPath
    (Product.vendorId product) (Product.path product)
    (InMemoryProductRepository.save product products)
  = Some product.
Proof.
  induction products as [|[k q] rest IH]; simpl.
  - intros _. rewrite !String.eqb_refl. reflexivity.
  - destruct (String.eqb (Product.vendorId q) (Product.vendorId product)
              && String.eqb (Product.path q) (Product.path product)) eqn:Hq;
      [discriminate|].
    intros Hfree. destruct (String.eqb k (Product.id product)); simpl.
    + rewrite !String.eqb_refl. reflexivity.
    + rewrite Hq. exact (IH Hfree).
Qed.

(** X14: the lifecycle status of a product is never looked at: with every
    stored product given any status, inactive included, each request
    completes as before, the released product differing in its status
    only. *)
Theorem status_is_not_enforced (decode : string -> Res PaymentPayload.t)
  (status : ProductStatus) (input : ProcessX402Input) (w : TestWorld) :
  fst (test_run decode input (withAllStatus status w))
  = result_withStatus status (fst (test_run decode input w)).
Proof.
  unfold test_run, run, execute, bind, await, call, ret; simpl.
  destruct (InMemoryVendorRepository.findById (vendorId input) (vendors w));
    simpl; [|reflexivity].
  rewrite findByVendorIdAndPath_withStatus.
  destruct (InMemoryProductRepository.findByVendorIdAndPath
              (vendorId input) (path input) (products w)) as [product|];
    simpl; [|reflexivity].
  completion_cases; reflexivity.
Qed.

(** X15: on the test doubles, for a supplied header that decodes to a
    payment payload of the declared shape (one that carries an accepted
    requirement with a scheme and a network): the proof reaches verification
    exactly when it claims scheme [exact] and the network of the product,
    and is then verified against the requirement built for the vendor's
    payout address, whatever payee or amount it claims; a proof of that
    shape claiming anything else is answered with the challenge that offers
    that requirement.  A header whose JSON is not of that shape is not a
    [PaymentPayload.t] and is outside this statement. *)
Theorem proof_verified_iff_exact_on_product_network
  (decode : string -> Res PaymentPayload.t) (input : ProcessX402Input)
  (w : TestWorld) (vendor : Vendor.t) (product : Product.t)
  (header : string) (payload : PaymentPayload.t) :
  InMemoryVendorRepository.findById (vendorId input) (vendors w) = Some vendor ->
  InMemoryProductRepository.findByVendorIdAndPath
    (vendorId input) (path input) (products w) = Some product ->
  paymentHeader input = Some header ->
  header <> EmptyString ->
  decode header = Returned payload ->
  let offered :=
    {| PaymentRequirements.scheme := "exact";
       PaymentRequirements.network := Product.network product;
       PaymentRequirements.asset := "0x036CbD53842c5426634e7929541eC2318f3dCF7e";
       PaymentRequirements.amount := "1000";
       PaymentRequirements.payTo := Vendor.evmAddress vendor;
       PaymentRequirements.maxTimeoutSeconds := 60;
       PaymentRequirements.extra := [] |} in
  let claimed := PaymentPayload.accepted payload in
  let result := test_run decode input w in
  if String.eqb "exact" (PaymentRequirements.scheme claimed)
     && String.eqb (Product.network product)
                   (PaymentRequirements.network claimed)
  then In (CallVerifyPayment payload offered
             (Returned (MockPaymentGateway.verifyResult (gateway w))))
          (trace (snd result))
  else fst result
       = Returned
           (payment_required
              {| PaymentRequired.x402Version := 2;
                 PaymentRequired.accepts := [offered];
                 PaymentRequired.resource := resolved_resource input product |})
       /\ no_mutating_calls (trace (snd result)).
Proof.
  intros Hvendor Hproduct Hheader Hnonempty Hdecode offered claimed result.
  unfold result, test_run, run, execute, bind, await, call, ret.
  cbn -[String.eqb].
  rewrite Hvendor; cbn -[String.eqb]. rewrite Hproduct; cbn -[String.eqb].
  rewrite Hheader.
  destruct header as [|c rest]; [congruence|].
  rewrite Hdecode; cbn -[String.eqb].
  unfold MockPaymentGateway.findMatchingRequirements,
    MockPaymentGateway.matches; cbn -[String.eqb].
  fold claimed.
  destruct (String.eqb "exact" (PaymentRequirements.scheme claimed)
            && String.eqb (Product.network product)
                          (PaymentRequirements.network claimed)).
  - cbn -[String.eqb]. completion_cases; simpl; auto 10.
  - split; [reflexivity | repeat constructor].
Qed.

(** X16: after a vendor and a product of that vendor are saved, the product
    on a path no stored product of the vendor has, a request for that vendor
    and path without a proof is answered with a challenge whose one
    requirement pays the vendor's payout address on the product's network. *)
Theorem saved_product_is_offered (decode : string -> Res PaymentPayload.t)
  (w : TestWorld) (vendor : Vendor.t) (product : Product.t) (url : string) :
  Product.vendorId product = Vendor.id vendor ->
  InMemoryProductRepository.findByVendorIdAndPath
    (Vendor.id vendor) (Product.path product) (products w) = None ->
  fst (test_run decode
         {| vendorId := Vendor.id vendor;
            path := Product.path product;
            resourceUrl := url;
            paymentHeader := None |}
         {| vendors := InMemoryVendorRepository.save vendor (vendors w);
            products := InMemoryProductRepository.save product (products w);
            gateway := gateway w |})
  = Returned
      (payment_required
         {| PaymentRequired.x402Version := 2;
            PaymentRequired.accepts :=
              [ {| PaymentRequirements.scheme := "exact";
                   PaymentRequirements.network := Product.network product;
                   PaymentRequirements.asset :=
                     "0x036CbD53842c5426634e7929541eC2318f3dCF7e";
                   PaymentRequirements.amount := "1000";
                   PaymentRequirements.payTo := Vendor.evmAddress vendor;
                   PaymentRequirements.maxTimeoutSeconds := 60;
                   PaymentRequirements.extra := [] |} ];
            PaymentRequired.resource :=
              {| ResourceInfo.url := url;
                 ResourceInfo.description := Product.description product;
                 ResourceInfo.mimeType := Product.mimeType product |} |}).
Proof.
  intros Hvendor Hfree. rewrite <- Hvendor in Hfree.
  apply findByVendorIdAndPath_saved_on_free_path in Hfree.
  unfold test_run, run, execute, bind, await, call, ret; simpl.
  unfold InMemoryVendorRepository.findById, InMemoryVendorRepository.save.
  rewrite lookup_insert_eq; simpl.
  rewrite <- Hvendor, Hfree; simpl. reflexivity.
Qed.

(** ** Further cases of the test file, through the theorems *)

Module MoreCases.
Import Fixture.

#[local] Existing Instance inMemoryVendorRepository.
#[local] Existing Instance inMemoryProductRepository.
#[local] Existing Instance mockGateway.

(** The success test: the settlement is made on the requirement built. *)
Lemma verify_and_settle_use_built_requirement_witness :
  exists config requirements,
    In (CallBuildPaymentRequirements config (Returned requirements))
       (trace (snd (test_run decodeHeader
                      (request "weather" (Some validHeader)) world0)))
    /\ In (requirementOn "eip155:84532") requirements.
Proof.
  apply (verify_and_settle_use_built_requirement
           (request "weather" (Some validHeader)) world0
           (mock_match_selects_from_list decodeHeader)
           (CallSettlePayment (payloadOn "eip155:84532")
              (requirementOn "eip155:84532")
              (Returned (MockPaymentGateway.settleResult MockPaymentGateway.new)))
           (payloadOn "eip155:84532") (requirementOn "eip155:84532")).
  - vm_compute. tauto.
  - right. eexists. reflexivity.
Defined.

(** The success test, read backwards from its result. *)
Lemma success_only_after_settlement_witness :
  exists vendor requirements header payload matching verified,
    paymentHeader (request "weather" (Some validHeader)) = Some header
    /\ VerifyResponse.isValid verified = true
    /\ SettleResponse.success
         (MockPaymentGateway.settleResult MockPaymentGateway.new) = true
    /\ trace (snd (test_run decodeHeader
                     (request "weather" (Some validHeader)) world0))
       = verified_calls (request "weather" (Some validHeader)) vendor
           testProduct requirements header payload matching verified
         ++ [CallSettlePayment payload matching
               (Returned
                  (MockPaymentGateway.settleResult MockPaymentGateway.new))].
Proof.
  exact (success_only_after_settlement
           (request "weather" (Some validHeader)) world0
           (MockPaymentGateway.settleResult MockPaymentGateway.new)
           testProduct eq_refl).
Defined.

(** The failed-verification test, read backwards from its result. *)
Lemma failures_come_from_the_port_witness :
  settle_calls
    (trace (snd (test_run decodeHeader
                   (request "weather" (Some validHeader))
                   (withVerifyResult invalidSignature world0)))) = 0%nat.
Proof.
  pose proof (proj1 (failures_come_from_the_port
                       (request "weather" (Some validHeader))
                       (withVerifyResult invalidSignature world0)
                       "Invalid signature") eq_refl)
    as (payload & matching & verified & _ & _ & _ & Hnone).
  exact Hnone.
Defined.

(** The no-header test: nothing was verified or settled. *)
Lemma challenge_and_not_found_call_no_payment_witness :
  no_mutating_calls
    (trace (snd (test_run decodeHeader (request "weather" None) world0))).
Proof.
  exact (proj1 (proj1 (challenge_and_not_found_call_no_payment
                         (request "weather" None) world0)
                      challenge eq_refl)).
Defined.

(** A proof on another network is answered with the challenge. *)
Lemma proof_verified_iff_exact_on_product_network_witness :
  fst (test_run decodeHeader (request "weather" (Some staleHeader)) world0)
  = Returned (payment_required challenge)
  /\ no_mutating_calls
       (trace (snd (test_run decodeHeader
                      (request "weather" (Some staleHeader)) world0))).
Proof.
  exact (proof_verified_iff_exact_on_product_network decodeHeader
           (request "weather" (Some staleHeader)) world0
           testVendor testProduct staleHeader (payloadOn "eip155:1")
           eq_refl eq_refl eq_refl ltac:(discriminate) eq_refl).
Defined.

(** The fixture of the test file: vendor and product saved, then asked
    for. *)
Lemma saved_product_is_offered_witness :
  fst (test_run decodeHeader (request "weather" None) world0)
  = Returned (payment_required challenge).
Proof.
  exact (saved_product_is_offered decodeHeader emptyWorld testVendor
           testProduct "http://localhost:3000/vendor1/weather"
           eq_refl eq_refl).
Defined.
End MoreCases.
